(** * Form C review backend: the compliance analysis engine

    A shallow embedding of the Python backend (backend/app): the checklist
    catalog of [compliance_issues_checklist.py], the analyzer of
    [compliance_analyzer.py], the PDF text extractor of [pdf_extractor.py]
    and the request handler of [main.py], followed by the properties of the
    engine that the design document states.

    Python strings are sequences of code points, dictionaries are
    association lists in insertion order, and code that can raise runs in a
    state-and-exception monad over the state of the serving process.
    Logging is not modelled. *)

From Stdlib Require Import String Ascii Bool ZArith NArith QArith Lia.
From Stdlib Require Import DecimalString Sorted List.
Import ListNotations.

Set Implicit Arguments.
Set Warnings "-register-all".

(** ** Python values *)

Module Py.

(** A code point. *)
Definition char := N.

(** A Python [str]: its code points, in order. [len] is [length], [+] is
    [++]. *)
Definition str := list char.

(** The code points of a UTF-8 byte sequence; only used to read the string
    literals of the source, which are well-formed. *)
Fixpoint utf8_decode (bs : list N) : str :=
  match bs with
  | [] => []
  | b0 :: r0 =>
    if (b0 <? 128)%N then b0 :: utf8_decode r0
    else match r0 with
    | [] => []
    | b1 :: r1 =>
      if (b0 <? 224)%N then
        ((b0 - 192) * 64 + (b1 - 128))%N :: utf8_decode r1
      else match r1 with
      | [] => []
      | b2 :: r2 =>
        if (b0 <? 240)%N then
          ((b0 - 224) * 4096 + (b1 - 128) * 64 + (b2 - 128))%N
            :: utf8_decode r2
        else match r2 with
        | [] => []
        | b3 :: r3 =>
          ((b0 - 240) * 262144 + (b1 - 128) * 4096
             + (b2 - 128) * 64 + (b3 - 128))%N :: utf8_decode r3
        end
      end
    end
  end.

(** A string literal of the source as a [str]. *)
Definition py (s : string) : str :=
  utf8_decode (map N_of_ascii (list_ascii_of_string s)).

(** The double quote, which a literal here cannot hold. *)
Definition dquote : str := [34%N].

(** [a == b] on strings. *)
Fixpoint str_eqb (a b : str) : bool :=
  match a, b with
  | [], [] => true
  | x :: a', y :: b' => (x =? y)%N && str_eqb a' b'
  | _, _ => false
  end.

(** [s[:stop]] for a non-negative [stop]. *)
Definition slice_to (stop : N) (s : str) : str := firstn (N.to_nat stop) s.

(** [s.startswith(p)]. *)
Fixpoint startswith (s p : str) : bool :=
  match p, s with
  | [], _ => true
  | x :: p', y :: s' => (x =? y)%N && startswith s' p'
  | _ :: _, [] => false
  end.

(** [s.endswith(suffix)]. *)
Definition endswith (s suffix : str) : bool :=
  (length suffix <=? length s)%nat
  && str_eqb (skipn (length s - length suffix) s) suffix.

(** [needle in s]. *)
Fixpoint contains (s needle : str) : bool :=
  startswith s needle
  || match s with
     | [] => false
     | _ :: s' => contains s' needle
     end.

(** The number of positions of [s] at which [needle] occurs. *)
Fixpoint occurrences (needle s : str) : nat :=
  (if startswith s needle then 1 else 0)
  + match s with
    | [] => 0
    | _ :: s' => occurrences needle s'
    end.

(** [s.replace(old, new)] for one-character [old] and [new], as the source
    calls it. *)
Definition replace1 (old new : char) (s : str) : str :=
  map (fun c => if (c =? old)%N then new else c) s.

Definition is_upper (c : char) : bool := ((65 <=? c) && (c <=? 90))%N.
Definition is_lower (c : char) : bool := ((97 <=? c) && (c <=? 122))%N.
Definition is_cased (c : char) : bool := is_upper c || is_lower c.
Definition upper (c : char) : char := if is_lower c then (c - 32)%N else c.
Definition lower (c : char) : char := if is_upper c then (c + 32)%N else c.

(** [s.title()]: a cased character is upper-cased after an uncased one (or
    at the start) and lower-cased after a cased one. Letters are the ASCII
    ones, which is exact on the catalog's category keys. *)
Fixpoint title_from (previous_is_cased : bool) (s : str) : str :=
  match s with
  | [] => []
  | c :: s' =>
    (if previous_is_cased then lower c else upper c)
      :: title_from (is_cased c) s'
  end.

Definition title (s : str) : str := title_from false s.

(** [sep.join(parts)]. *)
Fixpoint join (sep : str) (parts : list str) : str :=
  match parts with
  | [] => []
  | p :: rest =>
    match rest with
    | [] => p
    | _ :: _ => p ++ sep ++ join sep rest
    end
  end.

(** [str(n)] for an [int]. *)
Definition str_of_int (n : Z) : str :=
  py (NilZero.string_of_int (Z.to_int n)).

(** The values that the results of the backend are built from. *)
Inductive value : Type :=
| VNone
| VBool (b : bool)
| VInt (n : Z)
| VStr (s : str)
| VList (items : list value)
| VDict (entries : list (str * value)).

(** A [dict]: its entries in insertion order, keys pairwise different. *)
Definition dict := list (str * value).

(** [d.get(k)]: [None] when [k] is no key of [d]. *)
Fixpoint dict_get (d : dict) (k : str) : option value :=
  match d with
  | [] => None
  | (k', v) :: d' => if str_eqb k' k then Some v else dict_get d' k
  end.

(** [d[k] = v]: replaces the value of [k] in place, or adds the entry at
    the end. *)
Fixpoint dict_set (d : dict) (k : str) (v : value) : dict :=
  match d with
  | [] => [(k, v)]
  | (k', v') :: d' =>
    if str_eqb k' k then (k', v) :: d' else (k', v') :: dict_set d' k v
  end.

(** [list(d.keys())]. *)
Definition keys (d : dict) : list str := map fst d.

(** [bool(v)]. *)
Definition truthy (v : value) : bool :=
  match v with
  | VNone => false
  | VBool b => b
  | VInt n => negb (n =? 0)%Z
  | VStr s => negb (str_eqb s [])
  | VList items => match items with [] => false | _ => true end
  | VDict entries => match entries with [] => false | _ => true end
  end.

(** The string that a value is; the values read this way are strings. *)
Definition str_value (v : value) : str :=
  match v with
  | VStr s => s
  | _ => []
  end.

(** An instance of [Exception] raised by a builtin or by a library, carried
    by what [str(e)] gives. *)
Inductive exn : Type :=
| Exception (message : str).

Definition str_of_exn (e : exn) : str :=
  match e with Exception message => message end.

(** The outcome of running Python code: it returns, or it raises. *)
Inductive result (E A : Type) : Type :=
| Return (a : A)
| Raise (e : E).

Arguments Return {E A} a.
Arguments Raise {E A} e.

(** [d[k]]: raises [KeyError(k)], whose [str] is the quoted key. *)
Definition dict_item (d : dict) (k : str) : result exn value :=
  match dict_get d k with
  | Some v => Return v
  | None => Raise (Exception (py "'" ++ k ++ py "'"))
  end.

(** *** [str.format] with keyword arguments

    The template is read left to right: braces doubled stand for
    themselves, [{name}] is replaced by the argument called [name], and
    [{}] asks for a positional argument, of which there are none.
    Conversions, format specifications and attribute or index access do not
    occur in the templates of the source; their characters are read as part
    of the name. *)
Inductive format_state : Type :=
| Text
| AfterOpen
| AfterClose
| InField (name_rev : str).

Definition lbrace : char := 123%N.
Definition rbrace : char := 125%N.

Definition format_field (kwargs : list (str * str)) (name : str)
  : result exn str :=
  match find (fun kv => str_eqb (fst kv) name) kwargs with
  | Some kv => Return (snd kv)
  | None => Raise (Exception (py "'" ++ name ++ py "'"))
  end.

Definition emit (piece : str) (rest : result exn str) : result exn str :=
  match rest with
  | Return out => Return (piece ++ out)
  | Raise e => Raise e
  end.

Fixpoint format_from (st : format_state) (kwargs : list (str * str))
  (template : str) : result exn str :=
  match template with
  | [] =>
    match st with
    | Text => Return []
    | AfterOpen => Raise (Exception (py "Single '{' encountered in format string"))
    | AfterClose => Raise (Exception (py "Single '}' encountered in format string"))
    | InField _ => Raise (Exception (py "expected '}' before end of string"))
    end
  | c :: rest =>
    match st with
    | Text =>
      if (c =? lbrace)%N then format_from AfterOpen kwargs rest
      else if (c =? rbrace)%N then format_from AfterClose kwargs rest
      else emit [c] (format_from Text kwargs rest)
    | AfterOpen =>
      if (c =? lbrace)%N then emit [lbrace] (format_from Text kwargs rest)
      else if (c =? rbrace)%N then
        Raise (Exception
                 (py "Replacement index 0 out of range for positional args tuple"))
      else format_from (InField [c]) kwargs rest
    | AfterClose =>
      if (c =? rbrace)%N then emit [rbrace] (format_from Text kwargs rest)
      else Raise (Exception (py "Single '}' encountered in format string"))
    | InField name_rev =>
      if (c =? rbrace)%N then
        match format_field kwargs (rev name_rev) with
        | Return v => emit v (format_from Text kwargs rest)
        | Raise e => Raise e
        end
      else if (c =? lbrace)%N then
        Raise (Exception (py "unexpected '{' in field name"))
      else format_from (InField (c :: name_rev)) kwargs rest
    end
  end.

(** [template.format] called with the keyword arguments [kwargs]. *)
Definition format (template : str) (kwargs : list (str * str))
  : result exn str :=
  format_from Text kwargs template.

(** [bool(s)] for a string: it is not empty. *)
Definition str_truthy (s : str) : bool :=
  match s with
  | [] => false
  | _ :: _ => true
  end.

(** [bool(l)] for a list: it is not empty. *)
Definition str_truthy_list (l : list str) : bool :=
  match l with
  | [] => false
  | _ :: _ => true
  end.

(** [c.isspace()]: the characters Python counts as whitespace. *)
Definition isspace (c : char) : bool :=
  (((9 <=? c) && (c <=? 13)) || ((28 <=? c) && (c <=? 32))
   || (c =? 133) || (c =? 160) || (c =? 5760)
   || ((8192 <=? c) && (c <=? 8202))
   || (c =? 8232) || (c =? 8233) || (c =? 8239) || (c =? 8287)
   || (c =? 12288))%N.

(** [s.lstrip()], [s.rstrip()] and [s.strip()]. *)
Fixpoint lstrip (s : str) : str :=
  match s with
  | [] => []
  | c :: s' => if isspace c then lstrip s' else s
  end.

Definition rstrip (s : str) : str := rev (lstrip (rev s)).

Definition strip (s : str) : str := rstrip (lstrip s).

End Py.

Import Py.

(** ** The libraries the backend calls *)

(** [google.generativeai]: the reasoning service. *)
Module genai.

(** [genai.types.GenerationConfig]; the decimal literals of the source are
    kept as rationals. *)
Record GenerationConfig : Type := {
  temperature : Q;
  max_output_tokens : Z;
  top_p : Q
}.

(** What [generate_content] returns. Reading [response.text] raises when the
    response holds no usable text. *)
Record GenerateContentResponse : Type := {
  text : result exn str
}.

(** One call of [GenerativeModel.generate_content]. *)
Record call : Type := {
  call_model : str;
  call_prompt : str;
  call_config : GenerationConfig
}.

(** The behaviour of the service: what a call returns or raises, given the
    calls made before it. Two calls with one prompt may differ. *)
Definition service := list call -> call -> result exn GenerateContentResponse.

End genai.

(** [pdfplumber]: a PDF file as the library presents it. *)
Module pdfplumber.

(** Either reading the file raises, or it opens and gives its pages; for
    each page, [extract_text()] gives a string (which may be empty) or
    [None]. *)
Inductive pdf : Type :=
| Unreadable (e : exn)
| Opened (pages : list (option str)).

(** A table as [extract_tables()] gives it: rows of cells, a cell being a
    string or [None]. *)
Definition table := list (list (option str)).

(** The same file read for its tables: reading raises, or each page gives
    the list of its tables. *)
Inductive pdf_tables : Type :=
| TablesUnreadable (e : exn)
| TablesOpened (pages : list (list table)).

End pdfplumber.

(** [python-docx]: a DOCX file as the library presents it. *)
Module docx.

(** The paragraphs of the document by their text, and its tables: for each
    table its rows, for each row the text of its cells. *)
Record Document : Type := {
  paragraphs : list str;
  tables : list (list (list str))
}.

(** [Document(docx_path)] raises, or gives the document. *)
Inductive file : Type :=
| Unreadable (e : exn)
| Opened (doc : Document).

End docx.

(** ** The serving process *)

Module Process.

(** An entry of the catalog: a dictionary with exactly these four keys. *)
Record ChecklistItem : Type := {
  issue : str;
  rule : str;
  severity : str;
  check : str
}.

(** The catalog: category keys in insertion order, each with its items. *)
Definition checklist := list (str * list ChecklistItem).

(** An instance of [ComplianceAnalyzer]: [self.api_key] and the name the
    model [self.model] was created with. *)
Record ComplianceAnalyzer : Type := {
  api_key : str;
  model : str
}.

(** What the code reads and writes outside its arguments: the environment
    variable, the module globals of [compliance_issues_checklist] and
    [main], the reasoning service and the calls made to it so far. *)
Record world : Type := {
  environ_GEMINI_API_KEY : option str;
  global_COMPLIANCE_ISSUES_CHECKLIST : checklist;
  global_compliance_analyzer : option ComplianceAnalyzer;
  gemini : genai.service;
  gemini_calls : list genai.call
}.

(** Code that reads and writes the world and returns or raises. What was
    written before an exception stays written. *)
Definition M (E A : Type) : Type := world -> result E A * world.

Definition ret {E A} (a : A) : M E A := fun w => (Return a, w).

Definition raise {E A} (e : E) : M E A := fun w => (Raise e, w).

Definition bind {E A B} (m : M E A) (k : A -> M E B) : M E B :=
  fun w =>
    match m w with
    | (Return a, w') => k a w'
    | (Raise e, w') => (Raise e, w')
    end.

(** [try: body except Exception as e: handler(e)]. *)
Definition try_except {E F A} (body : M E A) (handler : E -> M F A) : M F A :=
  fun w =>
    match body w with
    | (Return a, w') => (Return a, w')
    | (Raise e, w') => handler e w'
    end.

(** A pure computation that may raise. *)
Definition lift {E A} (r : result E A) : M E A := fun w => (r, w).

(** Reading a module global or the environment. *)
Definition read {E A} (field : world -> A) : M E A :=
  fun w => (Return (field w), w).

(** [os.getenv("GEMINI_API_KEY")]. *)
Definition getenv_GEMINI_API_KEY {E} : M E (option str) :=
  read environ_GEMINI_API_KEY.

(** [model.generate_content(prompt, generation_config=config)]: the call is
    recorded, and the service answers or raises. *)
Definition generate_content (model_name prompt : str)
  (config : genai.GenerationConfig) : M exn genai.GenerateContentResponse :=
  fun w =>
    let c := {| genai.call_model := model_name;
                genai.call_prompt := prompt;
                genai.call_config := config |} in
    (gemini w (gemini_calls w) c,
     {| environ_GEMINI_API_KEY := environ_GEMINI_API_KEY w;
        global_COMPLIANCE_ISSUES_CHECKLIST := global_COMPLIANCE_ISSUES_CHECKLIST w;
        global_compliance_analyzer := global_compliance_analyzer w;
        gemini := gemini w;
        gemini_calls := gemini_calls w ++ [c] |}).

(** [global _compliance_analyzer; _compliance_analyzer = a]. *)
Definition set_compliance_analyzer {E} (a : option ComplianceAnalyzer)
  : M E unit :=
  fun w =>
    (Return tt,
     {| environ_GEMINI_API_KEY := environ_GEMINI_API_KEY w;
        global_COMPLIANCE_ISSUES_CHECKLIST := global_COMPLIANCE_ISSUES_CHECKLIST w;
        global_compliance_analyzer := a;
        gemini := gemini w;
        gemini_calls := gemini_calls w |}).

End Process.

Import Process.

Declare Scope py_scope.
Delimit Scope py_scope with py_m.
Notation "x <- m ;; k" := (bind m (fun x => k))
  (at level 61, m at next level, right associativity) : py_scope.
Notation "m ;;; k" := (bind m (fun _ => k))
  (at level 61, right associativity) : py_scope.
Open Scope py_scope.

(** The newline character, written \n in the source. *)
Definition nl : str := [10%N].

(** ** compliance_issues_checklist.py *)

Module compliance_issues_checklist.

(** The literal the module global is initialised with. *)
Definition COMPLIANCE_ISSUES_CHECKLIST : checklist :=
  [ (py "ownership_structure",
      [ {| issue := py "No owners with 20%+ equity identified";
          rule := py "Rule 201(h)";
          severity := py "Critical";
          check := py "Must identify all beneficial owners with 20% or more of voting equity" |};
        {| issue := py "Ownership structure table missing";
          rule := py "Rule 201(h)";
          severity := py "Critical";
          check := py "Must provide clear ownership structure including percentages" |};
        {| issue := py "No mention of voting rights or class differences";
          rule := py "Rule 201(m)";
          severity := py "High";
          check := py "Must disclose voting rights and any differences between share classes" |};
        {| issue := py "No disclosure of shareholder control risks";
          rule := py "Rule 201(d)";
          severity := py "High";
          check := py "Must disclose risks related to concentrated ownership or control" |};
        {| issue := py "No disclosure of principal shareholder influence";
          rule := py "Rule 201(d)";
          severity := py "Medium";
          check := py "Should describe how principal shareholders may influence company decisions" |} ]);
    (py "related_party_transactions",
      [ {| issue := py "No related-party transactions described";
          rule := py "Rule 201(s)";
          severity := py "Critical";
          check := py "Must disclose all related party transactions or state 'None' if applicable" |} ]);
    (py "business_operations",
      [ {| issue := py "Business plan not described";
          rule := py "Rule 201(b)";
          severity := py "Critical";
          check := py "Must provide description of business and business plan" |};
        {| issue := py "No information on operations or future growth strategy";
          rule := py "Rule 201(b)";
          severity := py "Critical";
          check := py "Must describe current operations and planned business development" |} ]);
    (py "issuer_information",
      [ {| issue := py "Physical address missing";
          rule := py "Rule 201(a)";
          severity := py "Critical";
          check := py "Must provide issuer's physical address" |};
        {| issue := py "Website not listed";
          rule := py "Rule 201(a)";
          severity := py "Medium";
          check := py "Should provide issuer's website if available" |};
        {| issue := py "Issuer is organized in Canada, not a U.S. state or territory";
          rule := py "Rule 100(a)(1)";
          severity := py "Critical";
          check := py "Issuer must be organized under U.S. state or territory laws" |} ]);
    (py "intermediary_disclosure",
      [ {| issue := py "DealMaker Securities LLC intermediary details omitted";
          rule := py "Rule 201(a)";
          severity := py "Critical";
          check := py "Must identify the intermediary through which offering is conducted" |};
        {| issue := py "No description of intermediary's financial interest";
          rule := py "Rule 201(r)";
          severity := py "Critical";
          check := py "Must disclose intermediary compensation and any other financial interest" |};
        {| issue := py "Issuer concurrently using two intermediaries for Reg CF";
          rule := py "Rule 100(a)(2)";
          severity := py "Critical";
          check := py "May only use one intermediary per offering" |} ]);
    (py "financial_statements",
      [ {| issue := py "No CPA review or audit included";
          rule := py "Rule 201(t)";
          severity := py "Critical";
          check := py "Financial statements must meet required level of review based on offering size" |};
        {| issue := py "Missing CEO certification for unaudited financials";
          rule := py "Rule 201(t)";
          severity := py "Critical";
          check := py "If financials not reviewed/audited, must include CEO certification" |};
        {| issue := py "No mention of accounting election under JOBS Act";
          rule := py "Rule 201(t)";
          severity := py "Low";
          check := py "May elect to use reduced accounting standards if applicable" |} ]);
    (py "offering_details",
      [ {| issue := py "Target offering amount exceeds limit";
          rule := py "Rule 100(a)(1)";
          severity := py "Critical";
          check := py "Reg CF offerings limited to $5M in 12-month period" |};
        {| issue := py "Deadline not specified";
          rule := py "Rule 201(g)";
          severity := py "Critical";
          check := py "Must specify offering deadline" |};
        {| issue := py "No oversubscription allocation method";
          rule := py "Rule 201(g)";
          severity := py "High";
          check := py "Must describe how oversubscriptions will be allocated" |};
        {| issue := py "Perk disclosure missing";
          rule := py "Rule 201(k)";
          severity := py "High";
          check := py "Must disclose any perks or rewards offered to investors" |};
        {| issue := py "Bonus share details absent";
          rule := py "Rule 201(k)";
          severity := py "High";
          check := py "Must clearly describe any bonus share programs" |} ]);
    (py "investor_rights",
      [ {| issue := py "No investor cancellation or refund procedure described";
          rule := py "Rule 303";
          severity := py "Critical";
          check := py "Must describe investor cancellation rights and procedures" |};
        {| issue := py "Incorrect cancellation disclosure (no 48-hour window)";
          rule := py "Rule 303";
          severity := py "Critical";
          check := py "Must allow 48-hour cancellation window before deadline" |};
        {| issue := py "No disclosure of 5-day reconfirmation requirement after material change";
          rule := py "Rule 304";
          severity := py "High";
          check := py "Must disclose reconfirmation requirement after material changes" |};
        {| issue := py "No explanation of rolling or early closing mechanics";
          rule := py "Rule 201(g)";
          severity := py "Medium";
          check := py "Should explain if using rolling closings or early closing option" |} ]);
    (py "valuation_risks",
      [ {| issue := py "Valuation methodology not included";
          rule := py "Rule 201(d)";
          severity := py "High";
          check := py "Should describe how valuation was determined" |};
        {| issue := py "No description of minority shareholder risks";
          rule := py "Rule 201(d)";
          severity := py "High";
          check := py "Must describe risks specific to minority shareholders" |};
        {| issue := py "No disclosure that valuation is speculative";
          rule := py "Rule 201(d)";
          severity := py "Medium";
          check := py "Should acknowledge speculative nature of valuation" |};
        {| issue := py "No valuation disclosure or investor fee explanation";
          rule := py "Rule 201(d)";
          severity := py "High";
          check := py "Must explain valuation and any fees charged to investors" |} ]);
    (py "officers_directors",
      [ {| issue := py "No names or titles of officers provided";
          rule := py "Rule 201(n)";
          severity := py "Critical";
          check := py "Must list all officers and directors with titles" |};
        {| issue := py "No employment history or relevant experience listed";
          rule := py "Rule 201(n)";
          severity := py "High";
          check := py "Must provide 3-year employment history for officers/directors" |};
        {| issue := py "No indication of other employment positions";
          rule := py "Rule 201(n)";
          severity := py "Medium";
          check := py "Should disclose other positions held by officers/directors" |};
        {| issue := py "Missing officer business affiliations";
          rule := py "Rule 201(n)";
          severity := py "Medium";
          check := py "Should disclose material business relationships" |} ]);
    (py "risk_factors",
      [ {| issue := py "No discussion of material risks or uncertainties";
          rule := py "Rule 201(d)";
          severity := py "Critical";
          check := py "Must discuss material factors that make investment risky" |};
        {| issue := py "Missing discussion of dilution or tax treatment";
          rule := py "Rule 201(d)";
          severity := py "High";
          check := py "Should discuss dilution risks and potential tax consequences" |} ]);
    (py "escrow_procedures",
      [ {| issue := py "No escrow agent identified";
          rule := py "Rule 303";
          severity := py "High";
          check := py "Should identify qualified third party holding investor funds" |} ]);
    (py "eligibility",
      [ {| issue := py "No certification confirming eligibility";
          rule := py "Rule 100";
          severity := py "Critical";
          check := py "Must certify eligibility to use Reg CF" |};
        {| issue := py "Issuer is a reporting company under the Exchange Act";
          rule := py "Rule 100(b)";
          severity := py "Critical";
          check := py "Reporting companies are ineligible for Reg CF" |} ]) ].

(** [get_all_issues_as_prompt()]. *)
Definition get_all_issues_as_prompt {E} : M E str :=
  checklist_items <- read global_COMPLIANCE_ISSUES_CHECKLIST ;;
  let prompt_sections :=
    fold_left
      (fun prompt_sections (entry : str * list ChecklistItem) =>
         let (category, issues) := entry in
         let category_title := title (replace1 95%N 32%N category) in
         let prompt_sections :=
           prompt_sections ++ [nl ++ py "### " ++ category_title ++ py ":"] in
         fold_left
           (fun prompt_sections issue_dict =>
              prompt_sections ++
              [py "- Check: " ++ check issue_dict ++ nl
               ++ py "  If missing/inadequate, report: "
               ++ dquote ++ issue issue_dict ++ dquote ++ nl
               ++ py "  Rule: " ++ rule issue_dict
               ++ py ", Severity: " ++ severity issue_dict])
           issues prompt_sections)
      checklist_items [] in
  ret (join nl prompt_sections).

(** [get_issues_by_severity(severity)]. *)
Definition get_issues_by_severity {E} (severity : str)
  : M E (list ChecklistItem) :=
  checklist_items <- read global_COMPLIANCE_ISSUES_CHECKLIST ;;
  let issues :=
    fold_left
      (fun issues (entry : str * list ChecklistItem) =>
         let (category, category_issues) := entry in
         fold_left
           (fun issues issue =>
              if str_eqb (Process.severity issue) severity
              then issues ++ [issue] else issues)
           category_issues issues)
      checklist_items [] in
  ret issues.

(** [get_issues_by_rule(rule)]. *)
Definition get_issues_by_rule {E} (rule : str) : M E (list ChecklistItem) :=
  checklist_items <- read global_COMPLIANCE_ISSUES_CHECKLIST ;;
  let issues :=
    fold_left
      (fun issues (entry : str * list ChecklistItem) =>
         let (category, category_issues) := entry in
         fold_left
           (fun issues issue =>
              if contains (Process.rule issue) rule
              then issues ++ [issue] else issues)
           category_issues issues)
      checklist_items [] in
  ret issues.

End compliance_issues_checklist.

(** ** compliance_analyzer.py *)

Module compliance_analyzer.

Definition COMPLIANCE_CHECKLIST : str :=
  py "
FORM C COMPLIANCE CHECKLIST (Rule 201 - Regulation Crowdfunding)

The issuer must provide the following disclosures:

1. ISSUER ELIGIBILITY & BASIC DATA (Rule 201(a), (b)):
   - Issuer name and legal status
   - Form of organization, jurisdiction, date of organization
   - Physical address and website
   - Intermediary information (must be DealMaker Securities LLC)
   - Intermediary compensation details

2. OFFERING SUMMARY DATA (Rule 201(c)):
   - Type of security offered
   - Target number of securities and price
   - Target offering amount and maximum offering amount
   - Oversubscription handling (if applicable)
   - Offering deadline and terms
   - Current number of employees

3. BUSINESS DESCRIPTION (Rule 201(b)):
   - Description of business and business plan
   - Must be specific and not generic

4. RISK FACTORS (Rule 201(g)):
   - Material factors that make investment speculative or risky
   - Must be specific to the issuer, not boilerplate
   - Should address industry-specific risks
   - Must be consistent with business description

5. DIRECTORS & OFFICERS (Rule 201(h)):
   - Names of all directors and officers
   - Positions held and duration
   - Business experience for past 3 years

6. BENEFICIAL OWNERS (Rule 201(i)):
   - 20%+ owners (voting equity)
   - Calculated on basis of voting power

7. OWNERSHIP & CAPITAL STRUCTURE (Rule 201(j)):
   - Terms of securities being offered
   - Description of each class of security
   - Voting rights and limitations
   - How rights may be diluted

8. FINANCIAL STATEMENTS (Rule 201(t)):
   - $0-$124k: Tax returns + CEO certified statements
   - $124k-$618k: CPA reviewed financial statements
   - $618k+: CPA audited financial statements (first-time issuers up to $1.235M can use reviewed)

9. FINANCIAL CONDITION DISCUSSION (Rule 201(v)):
   - Liquidity, capital resources
   - Historical results of operations

10. USE OF PROCEEDS (Rule 201(f)):
    - Specific purpose and intended use
    - Must provide detail, not vague " ++ dquote ++ py "general corporate purposes" ++ dquote ++ py "
    - If accepting oversubscriptions, explain use of excess

11. RELATED PARTY TRANSACTIONS (Rule 201(s)):
    - Transactions >5% of capital raised
    - Must disclose all material terms

12. PRIOR OFFERINGS (Rule 201(e)):
    - Exempt offerings in past 3 years
    - Date, exemption used, securities type, amount

13. DEBT & LIABILITIES (Rule 201(u)):
    - Material indebtedness terms
    - Amount, interest rate, maturity date

14. DISQUALIFICATION (Rule 227.503):
    - Bad actor disclosure
    - Pre-2016 triggering events

15. TRANSACTION PROCESSING (Rule 201(w)):
    - Investment confirmation process
    - Cancellation rights (48 hours)
    - Material changes policy
    - Rolling/early closings

16. INVESTOR LIMITATIONS (Rule 100):
    - Clear disclosure of investment limits

CRITICAL INCONSISTENCIES TO FLAG:
- Conflicting amounts across sections (offering amount, valuation, financials)
- Dates that don't align (fiscal year, offering deadline, etc.)
- Mathematical errors (cap table, revenue sums, percentages)
- Contradictions between sections (business model vs. revenue breakdown)
".

Definition REVIEW_PROMPT_TEMPLATE : str :=
  py "
You are an expert compliance analyst for DealMaker Securities LLC reviewing a Form C submission for Regulation Crowdfunding.

Your task is to analyze the provided Form C document and generate a comprehensive compliance report following this exact structure:

**REPORT STRUCTURE:**

**I. 🛑 Required Issuer Amendments (External Actions)**
Focus on material disclosure deficiencies that must be corrected. Organize by category:
- General Issues
- Risk Factor Issues
- Financial Consistency & Math Validation
- Capital Structure Review
- Use of Proceeds Validation
- Cross-Section Conflicts

For each issue, provide:
- Issue description
- Rule citation (e.g., Rule 201(f))
- Severity (Critical, High, Medium)
- Page number where found
- Specific explanation with details from the document
- AI reasoning explaining how you detected this issue

**II. ✅ Internal Reviewer Verification (Oversight Tasks)**
Always include these five checks:
1. Financial Statements (Rule 201(t)) - Confirm required level of assurance
2. Investor Fee Calculation
3. Intermediary Compensation (Rule 201(l))
4. Intermediary Other Interest (Rule 201(l))
5. Progress Update Mechanism (Rule 203)

**III. 👍 Required Disclosures Present and Compliant (Rule 201)**
List all Rule 201 disclosures that ARE present and meet minimum standards.

**IV. 🧑‍💼 Key Personnel and Significant Ownership**
- Officers and Directors with their positions
- 20%+ owners with ownership percentages
- Control persons for entity owners

**CRITICAL ANALYSIS RULES:**
1. PRIORITIZE INCONSISTENCIES: Any conflicting information (amounts, dates, numbers) is CRITICAL
2. FLAG MISSING MATERIAL TERMS: Debt maturity, conversion terms, use of proceeds detail
3. CHECK MATH: Verify all calculations and cross-references
4. ASSESS SPECIFICITY: Flag generic/boilerplate language in risks and use of proceeds
5. VERIFY ALIGNMENT: Business description must match financials and risk factors

**COMPLIANCE CHECKLIST:**
{checklist}

**FORM C TO ANALYZE:**
Issuer: {issuer_name}

{form_c_text}

Generate the complete compliance report now.
".

(** [a or b] on values that are a string or [None]. *)
Definition or_else (a b : option str) : option str :=
  match a with
  | Some (_ :: _) => a
  | _ => b
  end.

(** [ComplianceAnalyzer(api_key)]: the constructor. Configuring the library
    and creating the model handle have no effect that the backend reads
    back. *)
Definition __init__ (api_key : option str) : M exn ComplianceAnalyzer :=
  from_env <- getenv_GEMINI_API_KEY ;;
  match or_else api_key from_env with
  | Some (c :: key) =>
    ret {| Process.api_key := c :: key;
           model := py "gemini-2.0-flash-exp" |}
  | _ => raise (Exception (py "Gemini API key is required"))
  end.

(** [self._parse_analysis(analysis_text)]. *)
Definition _parse_analysis (self : ComplianceAnalyzer) (analysis_text : str)
  : dict :=
  let sections :=
    [ (py "amendments", VList []);
      (py "verifications", VList []);
      (py "compliant_disclosures", VList []);
      (py "key_personnel", VList []) ] in
  let sections := dict_set sections (py "raw_text") (VStr analysis_text) in
  sections.

(** The generation configuration of every call. *)
Definition generation_config : genai.GenerationConfig :=
  {| genai.temperature := 0.3;
     genai.max_output_tokens := 8000;
     genai.top_p := 0.95 |}.

(** The first statement of [analyze_form_c]: the prompt. *)
Definition prepare_prompt (issuer_name form_c_text : str) : result exn str :=
  format REVIEW_PROMPT_TEMPLATE
    [ (py "checklist", COMPLIANCE_CHECKLIST);
      (py "issuer_name", issuer_name);
      (py "form_c_text", slice_to 100000 form_c_text) ].

(** [self.analyze_form_c(issuer_name, form_c_text)]. *)
Definition analyze_form_c (self : ComplianceAnalyzer)
  (issuer_name form_c_text : str) : M exn dict :=
  try_except
    (prompt <- lift (prepare_prompt issuer_name form_c_text) ;;
     response <- generate_content (model self) prompt generation_config ;;
     analysis_text <- lift (genai.text response) ;;
     let structured_analysis := _parse_analysis self analysis_text in
     ret [ (py "success", VBool true);
           (py "issuer_name", VStr issuer_name);
           (py "raw_analysis", VStr analysis_text);
           (py "structured_analysis", VDict structured_analysis);
           (py "model_used", VStr (py "gemini-2.0-flash-exp"));
           (py "error", VNone) ])
    (fun e : exn =>
     ret [ (py "success", VBool false);
           (py "issuer_name", VStr issuer_name);
           (py "raw_analysis", VStr []);
           (py "structured_analysis", VDict []);
           (py "error", VStr (str_of_exn e)) ]).

End compliance_analyzer.

(** ** pdf_extractor.py *)

Module pdf_extractor.

(** [enumerate(items, start=start)]. *)
Fixpoint enumerate {A} (start : Z) (items : list A) : list (Z * A) :=
  match items with
  | [] => []
  | x :: rest => (start, x) :: enumerate (start + 1) rest
  end.

(** The two lists the loop of [extract_text_from_pdf] fills. *)
Record extracted : Type := {
  full_text : list str;
  page_texts : list value
}.

(** One round of the loop: a page whose text is [None] or empty adds
    nothing. *)
Definition extract_page (acc : extracted) (numbered : Z * option str)
  : extracted :=
  let (page_num, page_text) := numbered in
  match page_text with
  | Some (c :: t) =>
    {| full_text :=
         full_text acc
         ++ [py "--- Page " ++ str_of_int page_num ++ py " ---" ++ nl
             ++ (c :: t)];
       page_texts :=
         page_texts acc
         ++ [VDict [ (py "page", VInt page_num);
                     (py "text", VStr (c :: t)) ]] |}
  | _ => acc
  end.

(** [PDFExtractor().extract_text_from_pdf(pdf_path)], given the file found
    at [pdf_path]. *)
Definition extract_text_from_pdf (pdf : pdfplumber.pdf) : dict :=
  match pdf with
  | pdfplumber.Opened pages =>
    let total_pages := Z.of_nat (length pages) in
    let acc :=
      fold_left extract_page (enumerate 1 pages)
        {| full_text := []; page_texts := [] |} in
    let combined_text := join (nl ++ nl) (full_text acc) in
    [ (py "success", VBool true);
      (py "total_pages", VInt total_pages);
      (py "full_text", VStr combined_text);
      (py "pages", VList (page_texts acc));
      (py "error", VNone) ]
  | pdfplumber.Unreadable e =>
    [ (py "success", VBool false);
      (py "total_pages", VInt 0);
      (py "full_text", VStr []);
      (py "pages", VList []);
      (py "error", VStr (str_of_exn e)) ]
  end.

(** The cells of a table as values. *)
Definition cell_value (cell : option str) : value :=
  match cell with
  | Some s => VStr s
  | None => VNone
  end.

Definition table_value (table : pdfplumber.table) : value :=
  VList (map (fun row => VList (map cell_value row)) table).

(** [PDFExtractor().extract_tables_from_pdf(pdf_path)], given the file found
    at [pdf_path]. *)
Definition extract_tables_from_pdf (pdf : pdfplumber.pdf_tables)
  : list value :=
  match pdf with
  | pdfplumber.TablesOpened pages =>
    fold_left
      (fun tables (numbered : Z * list pdfplumber.table) =>
         let (page_num, page_tables) := numbered in
         match page_tables with
         | [] => tables
         | _ :: _ =>
           fold_left
             (fun tables (indexed : Z * pdfplumber.table) =>
                let (table_idx, table) := indexed in
                tables
                ++ [VDict [ (py "page", VInt page_num);
                            (py "table_index", VInt table_idx);
                            (py "data", table_value table) ]])
             (enumerate 0 page_tables) tables
         end)
      (enumerate 1 pages) []
  | pdfplumber.TablesUnreadable e => []
  end.

End pdf_extractor.

(** ** main.py *)

Module main.

(** What the request handlers raise: [HTTPException], which the framework
    turns into an error response, or any other exception. *)
Inductive raised : Type :=
| HTTPException (status_code : Z) (detail : str)
| Uncaught (e : exn).

(** Code whose exceptions are those of the libraries, run inside a
    handler. *)
Definition uncaught {A} (m : M exn A) : M raised A :=
  try_except m (fun e => raise (Uncaught e)).

(** The module body, run once when the server starts: it creates the
    extractor, which has no state, and leaves the analyzer unset. The
    environment is the one [load_dotenv()] leaves. *)
Definition startup : M raised unit :=
  set_compliance_analyzer None.

(** [get_compliance_analyzer()]. *)
Definition get_compliance_analyzer : M raised ComplianceAnalyzer :=
  current <- read global_compliance_analyzer ;;
  match current with
  | None =>
    api_key <- getenv_GEMINI_API_KEY ;;
    match api_key with
    | Some (c :: key) =>
      analyzer <- uncaught (compliance_analyzer.__init__ (Some (c :: key))) ;;
      set_compliance_analyzer (Some analyzer) ;;;
      ret analyzer
    | _ =>
      raise (HTTPException 500
               (py "Gemini API key not configured. Please set GEMINI_API_KEY environment variable."))
    end
  | Some analyzer => ret analyzer
  end.

(** The health check [root()] and [health_check()] answer with: whether the
    key is set. *)
Definition gemini_configured : M raised bool :=
  api_key <- getenv_GEMINI_API_KEY ;;
  ret (match api_key with Some (_ :: _) => true | _ => false end).

(** An uploaded file: its name, and the PDF that its bytes are. *)
Record UploadFile : Type := {
  filename : str;
  file : pdfplumber.pdf
}.

(** [d[k]] inside the handler. *)
Definition item (d : dict) (k : str) : M raised value :=
  uncaught (lift (dict_item d k)).

(** A value inside an f-string: a string stands for itself, [None], the
    booleans and the integers are printed. Containers do not reach an
    f-string here and are abbreviated. *)
Definition fstr (v : value) : str :=
  match v with
  | VStr s => s
  | VNone => py "None"
  | VBool true => py "True"
  | VBool false => py "False"
  | VInt n => str_of_int n
  | VList _ => py "[...]"
  | VDict _ => py "{...}"
  end.

(** The [try] block of the handler. Saving the upload to a temporary file
    and removing it afterwards is not modelled: the extractor is given the
    uploaded document. *)
Definition analyze_form_c_body (upload : UploadFile) (issuer_name : str)
  : M raised dict :=
  let extraction_result := pdf_extractor.extract_text_from_pdf (file upload) in
  extraction_ok <- item extraction_result (py "success") ;;
  if negb (truthy extraction_ok) then
    extraction_error <- item extraction_result (py "error") ;;
    raise (HTTPException 422
             (py "Failed to extract PDF text: " ++ fstr extraction_error))
  else
    analyzer <- get_compliance_analyzer ;;
    form_c_text <- item extraction_result (py "full_text") ;;
    analysis_result <-
      uncaught (compliance_analyzer.analyze_form_c analyzer issuer_name
                  (str_value form_c_text)) ;;
    analysis_ok <- item analysis_result (py "success") ;;
    if negb (truthy analysis_ok) then
      analysis_error <- item analysis_result (py "error") ;;
      raise (HTTPException 500
               (py "AI analysis failed: " ++ fstr analysis_error))
    else
      total_pages <- item extraction_result (py "total_pages") ;;
      raw_analysis <- item analysis_result (py "raw_analysis") ;;
      structured_analysis <- item analysis_result (py "structured_analysis") ;;
      ret [ (py "success", VBool true);
            (py "issuer_name", VStr issuer_name);
            (py "total_pages", total_pages);
            (py "raw_analysis", raw_analysis);
            (py "structured_analysis", structured_analysis);
            (py "model_used",
             match dict_get analysis_result (py "model_used") with
             | Some v => v
             | None => VNone
             end);
            (py "error", VNone) ].

(** [analyze_form_c(file, issuer_name)], the handler of
    POST /api/analyze-form-c. *)
Definition analyze_form_c (upload : UploadFile) (issuer_name : str)
  : M raised dict :=
  if negb (endswith (filename upload) (py ".pdf")) then
    raise (HTTPException 400 (py "Only PDF files are accepted"))
  else
    try_except (analyze_form_c_body upload issuer_name)
      (fun r =>
         match r with
         | HTTPException status_code detail =>
           raise (HTTPException status_code detail)
         | Uncaught e =>
           raise (HTTPException 500
                    (py "An unexpected error occurred: " ++ str_of_exn e))
         end).

(** The fields of the response model [AnalysisResponse]. *)
Definition AnalysisResponse : list str :=
  [ py "success"; py "issuer_name"; py "total_pages"; py "raw_analysis";
    py "structured_analysis"; py "model_used"; py "error" ].

(** [root()], the handler of GET /. *)
Definition root : M raised dict :=
  api_key_configured <- gemini_configured ;;
  ret [ (py "status", VStr (py "ok"));
        (py "message", VStr (py "Form C Review API is running"));
        (py "gemini_configured", VBool api_key_configured) ].

(** [health_check()], the handler of GET /health. *)
Definition health_check : M raised dict :=
  api_key_configured <- gemini_configured ;;
  ret [ (py "status", VStr (py "healthy"));
        (py "message", VStr (py "All services operational"));
        (py "gemini_configured", VBool api_key_configured) ].

(** [test_analysis()], the handler of POST /api/test-analysis. *)
Definition test_analysis : M raised dict :=
  ret [ (py "success", VBool true);
        (py "issuer_name", VStr (py "Test Company Inc."));
        (py "total_pages", VInt 25);
        (py "raw_analysis", VStr (py "This is a test analysis response..."));
        (py "structured_analysis",
         VDict
           [ (py "amendments",
              VList
                [ VDict
                    [ (py "issue", VStr (py "Inconsistent max offering amount"));
                      (py "rule", VStr (py "Rule 201(a)"));
                      (py "severity", VStr (py "Critical"));
                      (py "page", VInt 3);
                      (py "summary",
                       VStr (py "Summary states $5M max; financial section shows $4.5M")) ] ]);
             (py "verifications", VList []);
             (py "compliant_disclosures", VList []);
             (py "key_personnel", VList []) ]);
        (py "model_used", VStr (py "mock"));
        (py "error", VNone) ].

End main.

(** ** extract_docs.py *)

Module extract_docs.

(** [extract_docx_text(docx_path)], given the file found at [docx_path]. *)
Definition extract_docx_text (docx_path : str) (found : docx.file) : str :=
  match found with
  | docx.Opened doc =>
    let full_text :=
      fold_left
        (fun full_text para =>
           if str_truthy (strip para) then full_text ++ [para] else full_text)
        (docx.paragraphs doc) [] in
    let full_text :=
      fold_left
        (fun full_text table =>
           fold_left
             (fun full_text row =>
                let row_text :=
                  fold_left
                    (fun row_text cell =>
                       let cell_text := strip cell in
                       if str_truthy cell_text
                       then row_text ++ [cell_text] else row_text)
                    row [] in
                if str_truthy_list row_text
                then full_text ++ [join (py " | ") row_text] else full_text)
             table full_text)
        (docx.tables doc) full_text in
    join nl full_text
  | docx.Unreadable e =>
    py "Error extracting " ++ docx_path ++ py ": " ++ str_of_exn e
  end.

End extract_docs.

(** ** Vocabulary of the properties *)

Import compliance_analyzer.

(** The process once its modules are loaded: the catalog holds its literal,
    no analyzer exists yet and no call has been made. *)
Definition initial_world (key : option str) (svc : genai.service) : world :=
  {| environ_GEMINI_API_KEY := key;
     global_COMPLIANCE_ISSUES_CHECKLIST :=
       compliance_issues_checklist.COMPLIANCE_ISSUES_CHECKLIST;
     global_compliance_analyzer := None;
     gemini := svc;
     gemini_calls := [] |}.

(** The text of [s] before the first place where [marker] occurs. *)
Fixpoint before (marker s : str) : str :=
  match s with
  | [] => []
  | c :: s' => if startswith s marker then [] else c :: before marker s'
  end.

(** The prompt up to the issuer's name: the template before that field,
    with the checklist in its place. *)
Definition prompt_head : str :=
  match format (before (py "{issuer_name}") REVIEW_PROMPT_TEMPLATE)
          [ (py "checklist", COMPLIANCE_CHECKLIST) ] with
  | Return head => head
  | Raise _ => []
  end.

(** The prompt after the document text. *)
Definition prompt_tail : str :=
  nl ++ nl ++ py "Generate the complete compliance report now." ++ nl.

(** The prompt with document text [embedded] in it. *)
Definition prompt_with (issuer_name embedded : str) : str :=
  prompt_head ++ issuer_name ++ nl ++ nl ++ embedded ++ prompt_tail.

(** The call that an analysis makes. *)
Definition call_of (self : ComplianceAnalyzer) (issuer_name form_c_text : str)
  : genai.call :=
  {| genai.call_model := model self;
     genai.call_prompt := prompt_with issuer_name (slice_to 100000 form_c_text);
     genai.call_config := generation_config |}.

(** The text the service gives for call [c] in world [w], or the exception
    that calling it or reading its response raises. *)
Definition reply (w : world) (c : genai.call) : result exn str :=
  match gemini w (gemini_calls w) c with
  | Return response => genai.text response
  | Raise e => Raise e
  end.

(** The world after call [c]. *)
Definition after_call (w : world) (c : genai.call) : world :=
  {| environ_GEMINI_API_KEY := environ_GEMINI_API_KEY w;
     global_COMPLIANCE_ISSUES_CHECKLIST := global_COMPLIANCE_ISSUES_CHECKLIST w;
     global_compliance_analyzer := global_compliance_analyzer w;
     gemini := gemini w;
     gemini_calls := gemini_calls w ++ [c] |}.

(** The keys of the two results of an analysis. *)
Definition success_keys : list str :=
  [ py "success"; py "issuer_name"; py "raw_analysis";
    py "structured_analysis"; py "model_used"; py "error" ].

Definition failure_keys : list str :=
  [ py "success"; py "issuer_name"; py "raw_analysis";
    py "structured_analysis"; py "error" ].

(** A service that raises [e] at every call, and one that answers [t]. *)
Definition failing_service (e : exn) : genai.service :=
  fun _ _ => Raise e.

Definition answering_service (t : str) : genai.service :=
  fun _ _ => Return {| genai.text := Return t |}.

(** An analyzer as the constructor makes it. *)
Definition an_analyzer : ComplianceAnalyzer :=
  {| api_key := py "key"; model := py "gemini-2.0-flash-exp" |}.

(** A world in which the service raises [e], and one in which it answers
    [t]; the key is set and the modules are loaded. *)
Definition failing_world (e : exn) : world :=
  initial_world (Some (py "key")) (failing_service e).

Definition answering_world (t : str) : world :=
  initial_world (Some (py "key")) (answering_service t).

(** *** The catalog as the design document reads it *)

(** The heading of a category: its key, title-cased. *)
Definition category_heading (category : str) : str :=
  nl ++ py "### " ++ title (replace1 95%N 32%N category) ++ py ":".

(** An item: its check, the issue to report when it is not met, its rule
    and its severity. *)
Definition item_text (i : ChecklistItem) : str :=
  py "- Check: " ++ check i ++ nl
  ++ py "  If missing/inadequate, report: " ++ dquote ++ issue i ++ dquote ++ nl
  ++ py "  Rule: " ++ rule i ++ py ", Severity: " ++ severity i.

(** The rendering of the catalog: each category's heading and then its
    items, one per line group. *)
Definition render_checklist (items : checklist) : str :=
  join nl
    (flat_map (fun entry => category_heading (fst entry)
                              :: map item_text (snd entry)) items).

(** All items, by category order and then by item order in the category. *)
Definition all_items (items : checklist) : list ChecklistItem :=
  flat_map snd items.

(** The items of a given severity, in that order. *)
Definition items_by_severity (wanted : str) (items : checklist)
  : list ChecklistItem :=
  filter (fun i => str_eqb (severity i) wanted) (all_items items).

(** *** The pages of a PDF *)

(** A page gave text: [extract_text()] returned a string that is not
    empty. *)
Definition has_text (page : option str) : bool :=
  match page with
  | Some (_ :: _) => true
  | _ => false
  end.

(** The pages that gave text, each with its number; pages are numbered from
    [start]. *)
Fixpoint pages_with_text (start : Z) (pages : list (option str))
  : list (Z * str) :=
  match pages with
  | [] => []
  | page :: rest =>
    match page with
    | Some (c :: t) => (start, c :: t) :: pages_with_text (start + 1) rest
    | _ => pages_with_text (start + 1) rest
    end
  end.

(** The entry of [pages] for a page, and its block in [full_text], which
    starts with the page marker. *)
Definition page_entry (numbered : Z * str) : value :=
  VDict [ (py "page", VInt (fst numbered)); (py "text", VStr (snd numbered)) ].

Definition page_block (numbered : Z * str) : str :=
  py "--- Page " ++ str_of_int (fst numbered) ++ py " ---" ++ nl
  ++ snd numbered.

(** *** The credential *)

(** The key is missing: the variable is unset, or set to nothing. *)
Definition key_missing (w : world) : Prop :=
  environ_GEMINI_API_KEY w = None \/ environ_GEMINI_API_KEY w = Some [].

(** What the handler raises when the key is missing. *)
Definition not_configured : main.raised :=
  main.HTTPException 500
    (py "Gemini API key not configured. Please set GEMINI_API_KEY environment variable.").

(** An upload of a readable PDF under a PDF's name. *)
Definition pdf_upload (pages : list (option str)) : main.UploadFile :=
  {| main.filename := py "form-c.pdf"; main.file := pdfplumber.Opened pages |}.

(** *** Sample inputs *)

(** A document text of 100,001 characters. *)
Definition long_text : str := repeat 120%N (N.to_nat 100001).

(** The issuer and the document text of the design document's example. *)
Definition acme_issuer : str := py "Acme Corp".

Definition acme_text : str :=
  py "Acme is raising $5,000,000 for app expansion...".

(** *** Text of a DOCX file *)

(** A string of whitespace only (the empty string too). *)
Definition blank (s : str) : bool := forallb isspace s.

(** The line that a table row gives: its cells that are not blank, trimmed
    and joined by a bar; a row without such a cell gives no line. *)
Definition row_line (row : list str) : list str :=
  match map strip (filter (fun cell => negb (blank cell)) row) with
  | [] => []
  | cell :: cells => [join (py " | ") (cell :: cells)]
  end.

(** The lines of a document: its paragraphs that are not blank, as they
    are, and then the lines of the rows of its tables. *)
Definition docx_lines (doc : docx.Document) : list str :=
  filter (fun para => negb (blank para)) (docx.paragraphs doc)
  ++ flat_map (fun table => flat_map row_line table) (docx.tables doc).

(** *** Tables of a PDF *)

(** The record of the table found at index [table_idx] on page [page_num]. *)
Definition table_record (page_num table_idx : Z) (table : pdfplumber.table)
  : value :=
  VDict [ (py "page", VInt page_num);
          (py "table_index", VInt table_idx);
          (py "data", pdf_extractor.table_value table) ].

(** The records of all tables: pages counted from 1, the tables of a page
    from 0. *)
Definition table_records (pages : list (list pdfplumber.table)) : list value :=
  flat_map
    (fun numbered : Z * list pdfplumber.table =>
       map (fun indexed : Z * pdfplumber.table =>
              table_record (fst numbered) (fst indexed) (snd indexed))
         (pdf_extractor.enumerate 0 (snd numbered)))
    (pdf_extractor.enumerate 1 pages).

(** *** More of the catalog *)

(** The items whose rule citation holds [fragment], in the order of the
    catalog. *)
Definition items_by_rule (fragment : str) (items : checklist)
  : list ChecklistItem :=
  filter (fun i => contains (rule i) fragment) (all_items items).

(** The four severity levels. *)
Definition severities : list str :=
  [ py "Critical"; py "High"; py "Medium"; py "Low" ].

(** An item as the catalog is meant to hold it: a severity of the four, a
    rule citation that starts with the word Rule, an issue and a check. *)
Definition item_well_formed (i : ChecklistItem) : bool :=
  existsb (str_eqb (severity i)) severities
  && startswith (rule i) (py "Rule ")
  && str_truthy (issue i) && str_truthy (check i).

(** *** More of the process *)

(** The world with the environment variable set to [key] (or unset), and
    with [analyzer] as the analyzer of [main]. *)
Definition with_key (key : option str) (w : world) : world :=
  {| environ_GEMINI_API_KEY := key;
     global_COMPLIANCE_ISSUES_CHECKLIST := global_COMPLIANCE_ISSUES_CHECKLIST w;
     global_compliance_analyzer := global_compliance_analyzer w;
     gemini := gemini w;
     gemini_calls := gemini_calls w |}.

Definition with_analyzer (analyzer : ComplianceAnalyzer) (w : world) : world :=
  {| environ_GEMINI_API_KEY := environ_GEMINI_API_KEY w;
     global_COMPLIANCE_ISSUES_CHECKLIST := global_COMPLIANCE_ISSUES_CHECKLIST w;
     global_compliance_analyzer := Some analyzer;
     gemini := gemini w;
     gemini_calls := gemini_calls w |}.

(** The analyzer that the constructor makes from [key]. *)
Definition analyzer_with (key : str) : ComplianceAnalyzer :=
  {| api_key := key; model := py "gemini-2.0-flash-exp" |}.

(** The text of all pages of a PDF that opened, as the extractor joins it. *)
Definition full_text_of (pages : list (option str)) : str :=
  join (nl ++ nl) (map page_block (pages_with_text 1 pages)).


(** The response of the analysis handler for a PDF with [pages] and the
    text [analysis_text] of the reasoning service. *)
Definition success_response (self : ComplianceAnalyzer) (issuer_name : str)
  (pages : list (option str)) (analysis_text : str) : dict :=
  [ (py "success", VBool true);
    (py "issuer_name", VStr issuer_name);
    (py "total_pages", VInt (Z.of_nat (length pages)));
    (py "raw_analysis", VStr analysis_text);
    (py "structured_analysis", VDict (_parse_analysis self analysis_text));
    (py "model_used", VStr (py "gemini-2.0-flash-exp"));
    (py "error", VNone) ].

(** The error with which the handler answers a failed analysis. *)
Definition analysis_failed (e : exn) : main.raised :=
  main.HTTPException 500 (py "AI analysis failed: " ++ str_of_exn e).

(** * Properties *)

(** ** Strings *)

Lemma str_eqb_refl (s : str) : str_eqb s s = true.
Proof.
  induction s as [|c s IH]; simpl; [reflexivity|].
  now rewrite N.eqb_refl, IH.
Qed.

Lemma str_eqb_eq (a b : str) : str_eqb a b = true <-> a = b.
Proof.
  split.
  - revert b; induction a as [|x a IH]; intros [|y b] H; simpl in H;
      try discriminate; [reflexivity|].
    apply andb_true_iff in H as [Hx Hr].
    apply N.eqb_eq in Hx. apply IH in Hr. now subst.
  - intros ->. apply str_eqb_refl.
Qed.

(** ** The prompt *)

(** Formatting the template puts the three arguments at their places,
    whatever they are. *)
Lemma format_template (issuer_name embedded : str) :
  format REVIEW_PROMPT_TEMPLATE
    [ (py "checklist", COMPLIANCE_CHECKLIST);
      (py "issuer_name", issuer_name);
      (py "form_c_text", embedded) ]
  = Return (prompt_with issuer_name embedded).
Proof.
  vm_compute. reflexivity.
Qed.

(** The head of the prompt is the template's text before the checklist,
    the checklist, and the heading of the form with the issuer's label. *)
Lemma prompt_head_parts :
  prompt_head
  = before (py "{checklist}") REVIEW_PROMPT_TEMPLATE
    ++ COMPLIANCE_CHECKLIST
    ++ nl ++ nl ++ py "**FORM C TO ANALYZE:**" ++ nl ++ py "Issuer: ".
Proof.
  vm_compute. reflexivity.
Qed.

Lemma category_heading_example :
  category_heading (py "related_party_transactions")
  = nl ++ py "### Related Party Transactions:".
Proof.
  vm_compute. reflexivity.
Qed.

Lemma prepare_prompt_returns (issuer_name form_c_text : str) :
  prepare_prompt issuer_name form_c_text
  = Return (prompt_with issuer_name (slice_to 100000 form_c_text)).
Proof.
  unfold prepare_prompt. apply format_template.
Qed.

(** ** One analysis, step by step *)

(** An analysis makes exactly one call, and its result is decided by what
    the service gives for it. *)
Lemma analyze_form_c_run (self : ComplianceAnalyzer)
  (issuer_name form_c_text : str) (w : world) :
  analyze_form_c self issuer_name form_c_text w
  = (match reply w (call_of self issuer_name form_c_text) with
     | Return analysis_text =>
       Return [ (py "success", VBool true);
                (py "issuer_name", VStr issuer_name);
                (py "raw_analysis", VStr analysis_text);
                (py "structured_analysis",
                 VDict (_parse_analysis self analysis_text));
                (py "model_used", VStr (py "gemini-2.0-flash-exp"));
                (py "error", VNone) ]
     | Raise e =>
       Return [ (py "success", VBool false);
                (py "issuer_name", VStr issuer_name);
                (py "raw_analysis", VStr []);
                (py "structured_analysis", VDict []);
                (py "error", VStr (str_of_exn e)) ]
     end,
     after_call w (call_of self issuer_name form_c_text)).
Proof.
  unfold analyze_form_c, try_except, bind, lift, generate_content, reply.
  rewrite prepare_prompt_returns.
  fold (call_of self issuer_name form_c_text).
  fold (after_call w (call_of self issuer_name form_c_text)).
  destruct (gemini w (gemini_calls w) (call_of self issuer_name form_c_text))
    as [response|e]; [|reflexivity].
  destruct (genai.text response) as [analysis_text|e]; reflexivity.
Qed.

Lemma reply_failing_world (e : exn) (c : genai.call) :
  reply (failing_world e) c = Raise e.
Proof. reflexivity. Qed.

Lemma reply_answering_world (t : str) (c : genai.call) :
  reply (answering_world t) c = Return t.
Proof. reflexivity. Qed.

(** ** The structurer *)

Lemma parse_analysis_entries (self : ComplianceAnalyzer) (raw : str) :
  _parse_analysis self raw
  = [ (py "amendments", VList []);
      (py "verifications", VList []);
      (py "compliant_disclosures", VList []);
      (py "key_personnel", VList []);
      (py "raw_text", VStr raw) ].
Proof.
  unfold _parse_analysis. reflexivity.
Qed.

(** C5: for every raw text, [_parse_analysis] returns a dictionary with the
    four sequence fields amendments, verifications, compliant_disclosures
    and key_personnel (each a list) and the field raw_text, which holds the
    input verbatim. It is a total function, so it never fails, and
    structuring the raw text that a result preserves gives that result
    again. *)
Theorem parse_analysis_preserves_raw_text (self : ComplianceAnalyzer)
  (raw : str) :
  let structured := _parse_analysis self raw in
  keys structured
  = [ py "amendments"; py "verifications"; py "compliant_disclosures";
      py "key_personnel"; py "raw_text" ]
  /\ dict_get structured (py "amendments") = Some (VList [])
  /\ dict_get structured (py "verifications") = Some (VList [])
  /\ dict_get structured (py "compliant_disclosures") = Some (VList [])
  /\ dict_get structured (py "key_personnel") = Some (VList [])
  /\ dict_get structured (py "raw_text") = Some (VStr raw)
  /\ (forall kept,
        dict_get structured (py "raw_text") = Some kept ->
        _parse_analysis self (str_value kept) = structured)
  /\ _parse_analysis self raw = structured.
Proof.
  intro structured. subst structured.
  rewrite parse_analysis_entries.
  repeat split; try reflexivity.
  intros kept Hkept.
  change (Some (VStr raw) = Some kept) in Hkept.
  injection Hkept as <-. simpl.
  apply parse_analysis_entries.
Qed.

Lemma parse_analysis_preserves_raw_text_example :
  dict_get (_parse_analysis an_analyzer (py "NO ISSUES FOUND")) (py "raw_text")
  = Some (VStr (py "NO ISSUES FOUND")).
Proof.
  apply (parse_analysis_preserves_raw_text an_analyzer (py "NO ISSUES FOUND")).
Defined.

(** ** Failure of the reasoning call *)

(** C1, as the code has it: when the reasoning call fails (the call raises,
    or reading the text of its response does), [analyze_form_c] returns
    normally; the result has success false, an empty structured_analysis,
    an empty raw_analysis, and as error the text of the exception. That
    text is what the exception carries: the error is not empty exactly when
    the exception's text is not. *)
Theorem analyze_form_c_reports_failure (self : ComplianceAnalyzer)
  (issuer_name form_c_text : str) (w : world) (e : exn) :
  reply w (call_of self issuer_name form_c_text) = Raise e ->
  exists result,
    fst (analyze_form_c self issuer_name form_c_text w) = Return result
    /\ dict_get result (py "success") = Some (VBool false)
    /\ dict_get result (py "structured_analysis") = Some (VDict [])
    /\ dict_get result (py "raw_analysis") = Some (VStr [])
    /\ dict_get result (py "error") = Some (VStr (str_of_exn e))
    /\ (str_of_exn e <> [] <->
        exists message,
          dict_get result (py "error") = Some (VStr message) /\ message <> []).
Proof.
  intro Hfail.
  rewrite analyze_form_c_run, Hfail. simpl fst.
  eexists; split; [reflexivity|].
  repeat split; try reflexivity.
  - intro Hne. exists (str_of_exn e). split; [reflexivity|exact Hne].
  - intros [message [Hget Hne]].
    change (Some (VStr (str_of_exn e)) = Some (VStr message)) in Hget.
    injection Hget as ->. exact Hne.
Qed.

Lemma analyze_form_c_reports_failure_timeout :
  exists result,
    fst (analyze_form_c an_analyzer (py "Acme Corp") (py "valid text")
           (failing_world (Exception (py "Deadline Exceeded"))))
    = Return result
    /\ dict_get result (py "success") = Some (VBool false)
    /\ dict_get result (py "error") = Some (VStr (py "Deadline Exceeded")).
Proof.
  destruct (analyze_form_c_reports_failure an_analyzer (py "Acme Corp")
              (py "valid text")
              (failing_world (Exception (py "Deadline Exceeded")))
              (e := Exception (py "Deadline Exceeded")))
    as [result [Hret [Hsuccess [_ [_ [Herror _]]]]]].
  - reflexivity.
  - exists result. split; [exact Hret|]. split; [exact Hsuccess|exact Herror].
Defined.

(** C1 as stated fails: a reasoning call that raises an exception without a
    message (a timeout raised as [TimeoutError()], whose [str] is empty)
    gives a result whose error is the empty string. *)
Lemma failure_without_message_has_empty_error :
  ~ (forall (self : ComplianceAnalyzer) (issuer_name form_c_text : str)
            (w : world) (e : exn),
        reply w (call_of self issuer_name form_c_text) = Raise e ->
        exists result message,
          fst (analyze_form_c self issuer_name form_c_text w) = Return result
          /\ dict_get result (py "success") = Some (VBool false)
          /\ dict_get result (py "error") = Some (VStr message)
          /\ message <> []).
Proof.
  intro Hclaim.
  destruct (Hclaim an_analyzer (py "Acme Corp") (py "valid text")
              (failing_world (Exception [])) (Exception []))
    as [result [message [Hret [_ [Herror Hne]]]]].
  - apply reply_failing_world.
  - rewrite analyze_form_c_run, reply_failing_world in Hret.
    simpl fst in Hret. injection Hret as <-.
    change (Some (VStr []) = Some (VStr message)) in Herror.
    injection Herror as <-. now apply Hne.
Qed.

(** ** Inputs are not validated *)

(** C2, as the code has it: no pair of issuer name and document text is
    rejected. For every pair, empty ones included, composing the prompt
    returns, and the analysis makes exactly one call to the reasoning
    service, with that prompt. *)
Theorem analyze_form_c_always_calls (self : ComplianceAnalyzer)
  (issuer_name form_c_text : str) (w : world) :
  prepare_prompt issuer_name form_c_text
  = Return (genai.call_prompt (call_of self issuer_name form_c_text))
  /\ gemini_calls (snd (analyze_form_c self issuer_name form_c_text w))
     = gemini_calls w ++ [call_of self issuer_name form_c_text].
Proof.
  split.
  - apply prepare_prompt_returns.
  - rewrite analyze_form_c_run. reflexivity.
Qed.

(** C2 as stated fails: with an empty issuer name and an empty document
    text, composing the prompt raises nothing and the reasoning service is
    called once. *)
Lemma empty_input_reaches_the_service :
  (forall e, prepare_prompt [] [] <> Raise e)
  /\ length (gemini_calls
               (snd (analyze_form_c an_analyzer [] []
                       (answering_world (py "NO ISSUES FOUND")))))
     = 1%nat.
Proof.
  split.
  - intros e He. rewrite prepare_prompt_returns in He. discriminate He.
  - rewrite analyze_form_c_run. reflexivity.
Qed.

(** ** The keys of the two results *)

(** C9: an analysis returns a dictionary in either case. When the reasoning
    call gives a text, the keys are success, issuer_name, raw_analysis,
    structured_analysis, model_used and error, and model_used is the model
    name; when it fails, the keys are the same without model_used, which
    the result does not hold at all, although the response model
    [AnalysisResponse] lists it. *)
Theorem analyze_form_c_key_sets (self : ComplianceAnalyzer)
  (issuer_name form_c_text : str) (w : world) :
  exists result,
    fst (analyze_form_c self issuer_name form_c_text w) = Return result
    /\ match reply w (call_of self issuer_name form_c_text) with
       | Return _ =>
         dict_get result (py "success") = Some (VBool true)
         /\ keys result = success_keys
         /\ dict_get result (py "model_used")
            = Some (VStr (py "gemini-2.0-flash-exp"))
       | Raise _ =>
         dict_get result (py "success") = Some (VBool false)
         /\ keys result = failure_keys
         /\ dict_get result (py "model_used") = None
         /\ ~ In (py "model_used") (keys result)
       end
    /\ In (py "model_used") success_keys
    /\ ~ In (py "model_used") failure_keys
    /\ In (py "model_used") main.AnalysisResponse.
Proof.
  assert (Hout : ~ In (py "model_used") failure_keys).
  { intro Hin. vm_compute in Hin.
    repeat (destruct Hin as [Hin|Hin]; [discriminate Hin|]). exact Hin. }
  rewrite analyze_form_c_run.
  destruct (reply w (call_of self issuer_name form_c_text)) as [analysis_text|e];
    simpl fst; eexists; (split; [reflexivity|]).
  - split; [repeat split; reflexivity|].
    split; [vm_compute; tauto|]. split; [exact Hout|vm_compute; tauto].
  - split; [repeat split; try reflexivity; exact Hout|].
    split; [vm_compute; tauto|]. split; [exact Hout|vm_compute; tauto].
Qed.

(** ** The document text in the prompt *)

Lemma slice_to_length (stop : N) (s : str) :
  N.of_nat (length (slice_to stop s)) = N.min stop (N.of_nat (length s)).
Proof.
  unfold slice_to. rewrite length_firstn. lia.
Qed.

Lemma slice_to_short (stop : N) (s : str) :
  (N.of_nat (length s) <= stop)%N -> slice_to stop s = s.
Proof.
  intro Hle. unfold slice_to. apply firstn_all2. lia.
Qed.

(** C3: the prompt holds, between the issuer's name and the closing
    instruction, the document text cut to its first 100,000 characters. For
    a text longer than that the embedded text is that prefix and has
    exactly 100,000 characters; a text of at most 100,000 characters is
    embedded unchanged. *)
Theorem prepare_prompt_truncates (issuer_name form_c_text : str) :
  exists embedded,
    prepare_prompt issuer_name form_c_text
    = Return (prompt_head ++ issuer_name ++ nl ++ nl
              ++ embedded ++ prompt_tail)
    /\ embedded = firstn (N.to_nat 100000) form_c_text
    /\ ((100000 < N.of_nat (length form_c_text))%N ->
        N.of_nat (length embedded) = 100000%N
        /\ form_c_text = embedded ++ skipn (N.to_nat 100000) form_c_text)
    /\ ((N.of_nat (length form_c_text) <= 100000)%N ->
        embedded = form_c_text).
Proof.
  exists (slice_to 100000 form_c_text).
  split; [apply prepare_prompt_returns|].
  split; [reflexivity|].
  split.
  - intro Hlong. split.
    + rewrite slice_to_length. lia.
    + unfold slice_to. symmetry.
      exact (firstn_skipn (N.to_nat 100000) form_c_text).
  - apply slice_to_short.
Qed.

Lemma prepare_prompt_truncates_long_text :
  exists embedded,
    prepare_prompt acme_issuer long_text
    = Return (prompt_head ++ acme_issuer ++ nl ++ nl
              ++ embedded ++ prompt_tail)
    /\ N.of_nat (length embedded) = 100000%N.
Proof.
  destruct (prepare_prompt_truncates acme_issuer long_text)
    as [embedded [Hprompt [_ [Hlong _]]]].
  exists embedded. split; [exact Hprompt|].
  apply Hlong. vm_compute. reflexivity.
Defined.

(** ** The example request *)

(** C7, as the code has it: the prompt for issuer Acme Corp and the example
    text contains Acme Corp exactly once and COMPLIANCE CHECKLIST exactly
    twice: once in the heading that the template puts before the checklist
    and once in the title of the checklist itself. *)
Theorem acme_prompt_occurrences :
  exists prompt,
    prepare_prompt acme_issuer acme_text = Return prompt
    /\ occurrences (py "Acme Corp") prompt = 1%nat
    /\ occurrences (py "COMPLIANCE CHECKLIST") prompt = 2%nat
    /\ occurrences (py "COMPLIANCE CHECKLIST") REVIEW_PROMPT_TEMPLATE = 1%nat
    /\ occurrences (py "COMPLIANCE CHECKLIST") COMPLIANCE_CHECKLIST = 1%nat.
Proof.
  eexists. split; [apply prepare_prompt_returns|].
  repeat split; vm_compute; reflexivity.
Qed.

(** C7 as stated fails: in that prompt COMPLIANCE CHECKLIST does not occur
    exactly once. *)
Lemma acme_prompt_names_checklist_twice :
  ~ (exists prompt,
       prepare_prompt acme_issuer acme_text = Return prompt
       /\ occurrences (py "Acme Corp") prompt = 1%nat
       /\ occurrences (py "COMPLIANCE CHECKLIST") prompt = 1%nat).
Proof.
  intros [prompt [Hprompt [_ Honce]]].
  rewrite prepare_prompt_returns in Hprompt. injection Hprompt as <-.
  vm_compute in Honce. discriminate Honce.
Qed.

(** ** Folding with an accumulating list *)

Section Accumulate.

Variables A B : Type.

Lemma fold_left_snoc (g : A -> B) (l : list A) (acc : list B) :
  fold_left (fun acc x => acc ++ [g x]) l acc = acc ++ map g l.
Proof.
  revert acc; induction l as [|x l IH]; intro acc; simpl.
  - now rewrite app_nil_r.
  - rewrite IH, <- app_assoc. reflexivity.
Qed.

Lemma fold_left_snoc_if (keep : A -> bool) (l : list A) (acc : list A) :
  fold_left (fun acc x => if keep x then acc ++ [x] else acc) l acc
  = acc ++ filter keep l.
Proof.
  revert acc; induction l as [|x l IH]; intro acc; simpl.
  - now rewrite app_nil_r.
  - rewrite IH. destruct (keep x); [|reflexivity].
    rewrite <- app_assoc. reflexivity.
Qed.

Lemma fold_left_flat (step : list B -> A -> list B) (f : A -> list B) :
  (forall acc x, step acc x = acc ++ f x) ->
  forall (l : list A) (acc : list B),
    fold_left step l acc = acc ++ flat_map f l.
Proof.
  intros Hstep l; induction l as [|x l IH]; intro acc; simpl.
  - now rewrite app_nil_r.
  - rewrite IH, Hstep, <- app_assoc. reflexivity.
Qed.

End Accumulate.

(** ** The catalog *)

Lemma get_all_issues_as_prompt_run (E : Type) (w : world) :
  compliance_issues_checklist.get_all_issues_as_prompt (E := E) w
  = (Return (render_checklist (global_COMPLIANCE_ISSUES_CHECKLIST w)), w).
Proof.
  unfold compliance_issues_checklist.get_all_issues_as_prompt,
    bind, read, ret, render_checklist.
  rewrite (@fold_left_flat _ _ _
             (fun entry => category_heading (fst entry)
                             :: map item_text (snd entry))).
  - reflexivity.
  - intros acc [category issues]. simpl.
    rewrite (fold_left_snoc item_text). rewrite <- app_assoc. reflexivity.
Qed.

Lemma get_issues_by_severity_run (E : Type) (wanted : str) (w : world) :
  compliance_issues_checklist.get_issues_by_severity (E := E) wanted w
  = (Return (items_by_severity wanted (global_COMPLIANCE_ISSUES_CHECKLIST w)),
     w).
Proof.
  unfold compliance_issues_checklist.get_issues_by_severity,
    bind, read, ret, items_by_severity, all_items.
  rewrite (@fold_left_flat _ _ _
             (fun entry =>
                filter (fun i => str_eqb (severity i) wanted) (snd entry))).
  - simpl. do 2 f_equal.
    induction (global_COMPLIANCE_ISSUES_CHECKLIST w) as [|entry l IH];
      simpl; [reflexivity|].
    rewrite filter_app, IH. reflexivity.
  - intros acc [category issues]. simpl. apply fold_left_snoc_if.
Qed.

(** C4: composing is deterministic. Two analyses with the same issuer name
    and document text send the same prompt, whatever the service answered
    in between and whatever happened before; and
    [get_all_issues_as_prompt] returns the rendering of the catalog and
    leaves the process as it was, so that calling it again gives the same
    text. *)
Theorem requests_are_reproducible :
  (forall (self : ComplianceAnalyzer) (issuer_name form_c_text : str)
          (w : world),
      let w1 := snd (analyze_form_c self issuer_name form_c_text w) in
      let w2 := snd (analyze_form_c self issuer_name form_c_text w1) in
      exists prompt,
        prepare_prompt issuer_name form_c_text = Return prompt
        /\ map genai.call_prompt (gemini_calls w2)
           = map genai.call_prompt (gemini_calls w) ++ [prompt; prompt])
  /\ (forall w : world,
        let first := compliance_issues_checklist.get_all_issues_as_prompt
                       (E := exn) w in
        let second := compliance_issues_checklist.get_all_issues_as_prompt
                        (E := exn) (snd first) in
        first
        = (Return (render_checklist (global_COMPLIANCE_ISSUES_CHECKLIST w)), w)
        /\ second = first).
Proof.
  split.
  - intros self issuer_name form_c_text w w1 w2. subst w1 w2.
    exists (genai.call_prompt (call_of self issuer_name form_c_text)).
    split; [apply prepare_prompt_returns|].
    rewrite !analyze_form_c_run. simpl snd. simpl gemini_calls.
    rewrite <- app_assoc, map_app. reflexivity.
  - intros w first second. subst first second.
    rewrite !get_all_issues_as_prompt_run. split; reflexivity.
Qed.

(** The rendering of the catalog that the module defines starts with the
    heading of its first category and the first item. *)
Lemma render_checklist_starts :
  startswith
    (render_checklist compliance_issues_checklist.COMPLIANCE_ISSUES_CHECKLIST)
    (nl ++ py "### Ownership Structure:" ++ nl
     ++ py "- Check: Must identify all beneficial owners with 20% or more of voting equity"
     ++ nl ++ py "  If missing/inadequate, report: " ++ dquote
     ++ py "No owners with 20%+ equity identified" ++ dquote ++ nl
     ++ py "  Rule: Rule 201(h), Severity: Critical" ++ nl)
  = true.
Proof.
  vm_compute. reflexivity.
Qed.

(** C6: [get_issues_by_severity] returns exactly the items of the catalog
    whose severity is the given one, by category order and then by item
    order in the category, and leaves the process as it was. On the catalog
    that the module defines, the items of severity Critical include one
    whose rule is Rule 201(h). *)
Theorem get_issues_by_severity_filters :
  (forall (wanted : str) (w : world),
      compliance_issues_checklist.get_issues_by_severity (E := exn) wanted w
      = (Return
           (filter (fun i => str_eqb (severity i) wanted)
              (flat_map snd (global_COMPLIANCE_ISSUES_CHECKLIST w))),
         w))
  /\ (forall w : world,
        global_COMPLIANCE_ISSUES_CHECKLIST w
        = compliance_issues_checklist.COMPLIANCE_ISSUES_CHECKLIST ->
        exists (found : list ChecklistItem) (i : ChecklistItem),
          fst (compliance_issues_checklist.get_issues_by_severity
                 (E := exn) (py "Critical") w) = Return found
          /\ In i found
          /\ rule i = py "Rule 201(h)"
          /\ severity i = py "Critical").
Proof.
  split.
  - intros wanted w. apply get_issues_by_severity_run.
  - intros w Hstandard.
    rewrite get_issues_by_severity_run, Hstandard.
    exists (items_by_severity (py "Critical")
              compliance_issues_checklist.COMPLIANCE_ISSUES_CHECKLIST).
    exists {| issue := py "No owners with 20%+ equity identified";
              rule := py "Rule 201(h)";
              severity := py "Critical";
              check := py "Must identify all beneficial owners with 20% or more of voting equity" |}.
    split; [reflexivity|].
    split; [|split; reflexivity].
    vm_compute. left. reflexivity.
Qed.

Lemma get_issues_by_severity_filters_standard :
  exists (found : list ChecklistItem) (i : ChecklistItem),
    fst (compliance_issues_checklist.get_issues_by_severity
           (E := exn) (py "Critical") (answering_world (py "NO ISSUES FOUND")))
    = Return found
    /\ In i found
    /\ rule i = py "Rule 201(h)"
    /\ severity i = py "Critical".
Proof.
  apply (proj2 get_issues_by_severity_filters). reflexivity.
Defined.

(** ** The extractor *)

Import pdf_extractor.

Lemma extract_pages_fold (pages : list (option str)) :
  forall (start : Z) (acc : extracted),
    fold_left extract_page (enumerate start pages) acc
    = {| full_text :=
           full_text acc ++ map page_block (pages_with_text start pages);
         page_texts :=
           page_texts acc ++ map page_entry (pages_with_text start pages) |}.
Proof.
  induction pages as [|page pages IH]; intros start acc; simpl.
  - destruct acc as [texts entries]; simpl. now rewrite !app_nil_r.
  - rewrite IH. destruct page as [[|c t]|]; simpl; try reflexivity.
    rewrite <- !app_assoc. reflexivity.
Qed.

Lemma extract_text_from_pdf_opened (pages : list (option str)) :
  extract_text_from_pdf (pdfplumber.Opened pages)
  = [ (py "success", VBool true);
      (py "total_pages", VInt (Z.of_nat (length pages)));
      (py "full_text",
       VStr (join (nl ++ nl) (map page_block (pages_with_text 1 pages))));
      (py "pages", VList (map page_entry (pages_with_text 1 pages)));
      (py "error", VNone) ].
Proof.
  unfold extract_text_from_pdf. rewrite extract_pages_fold. reflexivity.
Qed.

(** The pages with text are the pages whose extraction gave a string that is
    not empty, under their numbers. *)
Lemma pages_with_text_spec (pages : list (option str)) :
  forall (start n : Z) (t : str),
    In (n, t) (pages_with_text start pages)
    <-> (start <= n)%Z
        /\ nth_error pages (Z.to_nat (n - start)) = Some (Some t)
        /\ t <> [].
Proof.
  induction pages as [|page pages IH]; intros start n t.
  - simpl. split; [tauto|].
    intros [_ [Hnth _]]. destruct (Z.to_nat (n - start)); discriminate Hnth.
  - assert (Hrest :
      In (n, t) (pages_with_text (start + 1) pages)
      <-> (start < n)%Z
          /\ nth_error (page :: pages) (Z.to_nat (n - start)) = Some (Some t)
          /\ t <> []).
    { rewrite IH. split.
      - intros [Hle [Hnth Hne]]. split; [lia|]. split; [|exact Hne].
        replace (Z.to_nat (n - start)) with (S (Z.to_nat (n - (start + 1))))
          by lia.
        exact Hnth.
      - intros [Hlt [Hnth Hne]]. split; [lia|]. split; [|exact Hne].
        replace (Z.to_nat (n - start)) with (S (Z.to_nat (n - (start + 1))))
          in Hnth by lia.
        exact Hnth. }
    assert (Hhere :
      forall u, (start <= n)%Z
                /\ nth_error (page :: pages) (Z.to_nat (n - start))
                   = Some (Some u) /\ u <> []
                -> n = start -> page = Some u).
    { intros u [_ [Hnth _]] ->. rewrite Z.sub_diag in Hnth.
      simpl in Hnth. now injection Hnth. }
    destruct page as [[|c s]|]; simpl.
    + rewrite Hrest. split.
      * intros [Hlt H]. split; [lia|exact H].
      * intros H. destruct (Z.eq_dec n start) as [Heq|Hneq].
        -- pose proof (Hhere t H Heq) as Hpage. injection Hpage as <-.
           now destruct H as [_ [_ Hne]].
        -- split; [lia|apply H].
    + split.
      * intros [Hhead|Htail].
        -- injection Hhead as <- <-. split; [lia|].
           rewrite Z.sub_diag. split; [reflexivity|discriminate].
        -- apply Hrest in Htail as [Hlt H]. split; [lia|exact H].
      * intros H. destruct (Z.eq_dec n start) as [Heq|Hneq].
        -- left. pose proof (Hhere t H Heq) as Hpage.
           injection Hpage as <-. now subst n.
        -- right. apply Hrest. split; [lia|apply H].
    + rewrite Hrest. split.
      * intros [Hlt H]. split; [lia|exact H].
      * intros H. destruct (Z.eq_dec n start) as [Heq|Hneq].
        -- pose proof (Hhere t H Heq) as Hpage. discriminate Hpage.
        -- split; [lia|apply H].
Qed.

Lemma pages_with_text_count (pages : list (option str)) :
  forall start : Z,
    (length (pages_with_text start pages)
     + length (filter (fun page => negb (has_text page)) pages)
     = length pages)%nat.
Proof.
  induction pages as [|page pages IH]; intro start; simpl; [reflexivity|].
  specialize (IH (start + 1)%Z).
  destruct page as [[|c t]|]; simpl; lia.
Qed.

(** C10: for a PDF that opened, [extract_text_from_pdf] reports as
    total_pages the number of pages of the PDF, and holds in pages and in
    full_text an entry and a block, headed by the page marker, for exactly
    the pages whose text extraction gave a string that is not empty, under
    their numbers counted from 1. A page without text has neither; the
    entries are as many as the pages less those without text, which is
    fewer than total_pages as soon as one page has none. *)
Theorem extract_text_from_pdf_omits_empty_pages :
  (forall pages : list (option str),
      let extraction := extract_text_from_pdf (pdfplumber.Opened pages) in
      let kept := pages_with_text 1 pages in
      dict_get extraction (py "success") = Some (VBool true)
      /\ dict_get extraction (py "total_pages")
         = Some (VInt (Z.of_nat (length pages)))
      /\ dict_get extraction (py "pages") = Some (VList (map page_entry kept))
      /\ dict_get extraction (py "full_text")
         = Some (VStr (join (nl ++ nl) (map page_block kept)))
      /\ (forall (n : Z) (t : str),
            In (n, t) kept
            <-> (1 <= n)%Z
                /\ nth_error pages (Z.to_nat (n - 1)) = Some (Some t)
                /\ t <> [])
      /\ (length kept
          + length (filter (fun page => negb (has_text page)) pages)
          = length pages)%nat
      /\ ((exists page, In page pages /\ has_text page = false) ->
          (length kept < length pages)%nat))
  /\ (exists (pages : list (option str)) (entries : list value),
        dict_get (extract_text_from_pdf (pdfplumber.Opened pages)) (py "pages")
        = Some (VList entries)
        /\ dict_get (extract_text_from_pdf (pdfplumber.Opened pages))
             (py "total_pages") = Some (VInt 3)
        /\ length entries = 1%nat).
Proof.
  split.
  - intros pages extraction kept. subst extraction kept.
    rewrite extract_text_from_pdf_opened.
    split; [reflexivity|]. split; [reflexivity|].
    split; [reflexivity|]. split; [reflexivity|].
    split; [apply pages_with_text_spec|].
    split; [apply pages_with_text_count|].
    intros [page [Hin Hempty]].
    pose proof (pages_with_text_count pages 1) as Hcount.
    assert (Hsome :
      (0 < length (filter (fun page => negb (has_text page)) pages))%nat).
    { assert (Hf : In page (filter (fun page => negb (has_text page)) pages)).
      { apply filter_In. split; [exact Hin|]. now rewrite Hempty. }
      destruct (filter (fun page => negb (has_text page)) pages);
        [destruct Hf|simpl; lia]. }
    lia.
  - exists [None; Some (py "Offering summary"); Some []].
    exists [page_entry (2%Z, py "Offering summary")].
    rewrite extract_text_from_pdf_opened.
    repeat split; reflexivity.
Qed.

Lemma extract_text_from_pdf_omits_empty_pages_example :
  (length (pages_with_text 1 [None; Some (py "Offering summary"); Some []])
   < length [None; Some (py "Offering summary"); Some ([] : str)])%nat.
Proof.
  apply (proj1 extract_text_from_pdf_omits_empty_pages
           [None; Some (py "Offering summary"); Some []]).
  exists None. split; [left; reflexivity|reflexivity].
Defined.

(** ** The credential *)

Lemma startup_run (w : world) :
  main.startup w
  = (Return tt,
     {| environ_GEMINI_API_KEY := environ_GEMINI_API_KEY w;
        global_COMPLIANCE_ISSUES_CHECKLIST := global_COMPLIANCE_ISSUES_CHECKLIST w;
        global_compliance_analyzer := None;
        gemini := gemini w;
        gemini_calls := gemini_calls w |}).
Proof. reflexivity. Qed.

(** Without a key and without an analyzer, asking for the analyzer raises
    and changes nothing. *)
Lemma get_compliance_analyzer_without_key (w : world) :
  key_missing w ->
  global_compliance_analyzer w = None ->
  main.get_compliance_analyzer w = (Raise not_configured, w).
Proof.
  intros Hkey Hnone.
  unfold main.get_compliance_analyzer, getenv_GEMINI_API_KEY, bind, read.
  rewrite Hnone. destruct Hkey as [Hkey|Hkey]; rewrite Hkey; reflexivity.
Qed.

Lemma init_without_key (w : world) :
  key_missing w ->
  __init__ None w = (Raise (Exception (py "Gemini API key is required")), w).
Proof.
  intro Hkey.
  unfold __init__, getenv_GEMINI_API_KEY, bind, read.
  destruct Hkey as [Hkey|Hkey]; rewrite Hkey; reflexivity.
Qed.

(** With a PDF that opened, the handler gets as far as asking for the
    analyzer. *)
Lemma handler_body_reaches_analyzer (upload : main.UploadFile)
  (pages : list (option str)) (issuer_name : str) (w : world) :
  main.file upload = pdfplumber.Opened pages ->
  main.get_compliance_analyzer w = (Raise not_configured, w) ->
  main.analyze_form_c_body upload issuer_name w = (Raise not_configured, w).
Proof.
  intros Hfile Hraise.
  unfold main.analyze_form_c_body. rewrite Hfile.
  rewrite extract_text_from_pdf_opened.
  unfold bind at 1.
  change (main.item _ (py "success") w) with (Return (E := main.raised) (VBool true), w).
  cbv iota beta.
  change (negb (truthy (VBool true))) with false. cbv iota.
  unfold bind at 1. rewrite Hraise. reflexivity.
Qed.

(** C8, as the code has it: a missing key does not stop the start. The
    module body returns and leaves the analyzer unset; the failure comes
    with the first analysis request that reaches the analyzer (a PDF, by
    its name, that opened): it is answered with status 500 and the detail
    that the key is not configured, no call is made to the reasoning
    service, and the analyzer stays unset. It is the constructor of the
    analyzer, never run at the start, that raises on a missing key. *)
Theorem missing_key_fails_at_first_request (w : world)
  (upload : main.UploadFile) (pages : list (option str))
  (issuer_name : str) :
  key_missing w ->
  endswith (main.filename upload) (py ".pdf") = true ->
  main.file upload = pdfplumber.Opened pages ->
  let started := snd (main.startup w) in
  let request := main.analyze_form_c upload issuer_name started in
  fst (main.startup w) = Return tt
  /\ global_compliance_analyzer started = None
  /\ fst request = Raise not_configured
  /\ gemini_calls (snd request) = gemini_calls w
  /\ global_compliance_analyzer (snd request) = None
  /\ fst (__init__ None w)
     = Raise (Exception (py "Gemini API key is required")).
Proof.
  intros Hkey Hname Hfile started request. subst request started.
  rewrite startup_run. simpl fst. simpl snd.
  set (started :=
         {| environ_GEMINI_API_KEY := environ_GEMINI_API_KEY w;
            global_COMPLIANCE_ISSUES_CHECKLIST :=
              global_COMPLIANCE_ISSUES_CHECKLIST w;
            global_compliance_analyzer := None;
            gemini := gemini w;
            gemini_calls := gemini_calls w |}).
  assert (Hrequest :
    main.analyze_form_c upload issuer_name started
    = (Raise not_configured, started)).
  { unfold main.analyze_form_c. rewrite Hname.
    change (negb true) with false. cbv iota.
    unfold try_except. cbv beta.
    rewrite (@handler_body_reaches_analyzer upload pages issuer_name started
               Hfile).
    - reflexivity.
    - apply get_compliance_analyzer_without_key; [exact Hkey|reflexivity]. }
  rewrite Hrequest. rewrite (init_without_key Hkey).
  repeat split; reflexivity.
Qed.

Lemma missing_key_fails_at_first_request_unset :
  fst (main.analyze_form_c (pdf_upload [Some (py "Offering summary")])
         acme_issuer
         (snd (main.startup
                 (initial_world None (answering_service (py "NO ISSUES FOUND"))))))
  = Raise not_configured.
Proof.
  apply (@missing_key_fails_at_first_request
           (initial_world None (answering_service (py "NO ISSUES FOUND")))
           (pdf_upload [Some (py "Offering summary")])
           [Some (py "Offering summary")] acme_issuer).
  - left. reflexivity.
  - vm_compute. reflexivity.
  - reflexivity.
Defined.

(** C8 as stated fails: with the key unset, the start raises nothing. *)
Lemma startup_without_key_returns :
  key_missing (initial_world None (answering_service (py "NO ISSUES FOUND")))
  /\ ~ (exists r : main.raised,
          fst (main.startup
                 (initial_world None (answering_service (py "NO ISSUES FOUND"))))
          = Raise r).
Proof.
  split.
  - left. reflexivity.
  - intros [r Hraise]. rewrite startup_run in Hraise. discriminate Hraise.
Qed.

(** * Further properties of the code *)

(** ** Substrings and whitespace *)

Lemma startswith_spec (s p : str) :
  startswith s p = true <-> exists rest, s = p ++ rest.
Proof.
  revert s; induction p as [|x p IH]; intro s.
  - split; [intros _; now exists s|intros _; now destruct s].
  - destruct s as [|y s]; cbn [startswith].
    + split; [discriminate|]. intros [rest Hrest]. discriminate Hrest.
    + rewrite andb_true_iff, N.eqb_eq, IH. split.
      * intros [-> [rest ->]]. now exists rest.
      * intros [rest Hrest]. injection Hrest as -> ->.
        split; [reflexivity|now exists rest].
Qed.

Lemma contains_spec (s needle : str) :
  contains s needle = true <-> exists pre post, s = pre ++ needle ++ post.
Proof.
  induction s as [|c s IH].
  - cbn [contains]. rewrite orb_false_r, startswith_spec. split.
    + intros [rest Hrest]. now exists [], rest.
    + intros [pre [post Heq]].
      destruct pre as [|x pre]; [now exists post|discriminate Heq].
  - cbn [contains]. rewrite orb_true_iff, startswith_spec, IH. split.
    + intros [[rest Hrest]|[pre [post Heq]]].
      * now exists [], rest.
      * exists (c :: pre), post. simpl. now rewrite Heq.
    + intros [pre [post Heq]]. destruct pre as [|x pre].
      * left. now exists post.
      * right. injection Heq as _ Heq. now exists pre, post.
Qed.

Lemma lstrip_nil (s : str) : lstrip s = [] <-> blank s = true.
Proof.
  induction s as [|c s IH]; simpl; [tauto|].
  destruct (isspace c); simpl; [exact IH|].
  split; discriminate.
Qed.

Lemma lstrip_blank (s : str) : blank (lstrip s) = true -> blank s = true.
Proof.
  induction s as [|c s IH]; simpl; [tauto|].
  destruct (isspace c) eqn:Hc; simpl; [exact IH|].
  now rewrite Hc.
Qed.

Lemma blank_rev (s : str) : blank (rev s) = blank s.
Proof.
  unfold blank. induction s as [|c s IH]; simpl; [reflexivity|].
  rewrite forallb_app, IH. simpl. rewrite andb_true_r. apply andb_comm.
Qed.

Lemma strip_nil (s : str) : strip s = [] <-> blank s = true.
Proof.
  unfold strip, rstrip. split.
  - intro Hnil. apply lstrip_blank.
    rewrite <- blank_rev. apply lstrip_nil.
    rewrite <- (rev_involutive (lstrip (rev (lstrip s)))), Hnil. reflexivity.
  - intro Hblank. apply lstrip_nil in Hblank. rewrite Hblank. reflexivity.
Qed.

Lemma strip_truthy (s : str) : str_truthy (strip s) = negb (blank s).
Proof.
  destruct (blank s) eqn:Hblank; simpl.
  - apply strip_nil in Hblank. now rewrite Hblank.
  - destruct (strip s) eqn:Hstrip; [|reflexivity].
    apply strip_nil in Hstrip. congruence.
Qed.

Lemma fold_left_snoc_map_if (A B : Type) (keep : A -> bool) (g : A -> B)
  (l : list A) (acc : list B) :
  fold_left (fun acc x => if keep x then acc ++ [g x] else acc) l acc
  = acc ++ map g (filter keep l).
Proof.
  revert acc; induction l as [|x l IH]; intro acc; simpl.
  - now rewrite app_nil_r.
  - rewrite IH. destruct (keep x); [|reflexivity].
    simpl. rewrite <- app_assoc. reflexivity.
Qed.

Lemma join_nil (sep : str) (parts : list str) :
  Forall (fun part => part <> []) parts ->
  join sep parts = [] -> parts = [].
Proof.
  intros Hparts Hjoin. destruct parts as [|part rest]; [reflexivity|].
  exfalso. inversion Hparts as [|? ? Hpart _]; subst. apply Hpart.
  simpl in Hjoin. destruct rest as [|next rest]; [exact Hjoin|].
  now apply app_eq_nil in Hjoin.
Qed.

(** ** extract_docx_text *)

Lemma row_cells_fold (row : list str) :
  fold_left
    (fun row_text cell =>
       let cell_text := strip cell in
       if str_truthy cell_text then row_text ++ [cell_text] else row_text)
    row []
  = map strip (filter (fun cell => negb (blank cell)) row).
Proof.
  cbv zeta.
  rewrite (fold_left_snoc_map_if (fun cell => str_truthy (strip cell)) strip).
  simpl. f_equal. apply filter_ext. intro cell. apply strip_truthy.
Qed.

Lemma docx_lines_not_empty (doc : docx.Document) :
  Forall (fun line => line <> []) (docx_lines doc).
Proof.
  unfold docx_lines. apply Forall_app. split.
  - apply Forall_forall. intros para Hin. apply filter_In in Hin as [_ Hkeep].
    intros ->. discriminate Hkeep.
  - apply Forall_forall. intros line Hin.
    apply in_flat_map in Hin as [table [_ Hin]].
    apply in_flat_map in Hin as [row [_ Hin]].
    unfold row_line in Hin.
    destruct (filter (fun cell => negb (blank cell)) row) as [|cell cells]
      eqn:Hkept; [destruct Hin|].
    assert (Hcell : strip cell <> []).
    { assert (Hk : In cell (filter (fun cell => negb (blank cell)) row))
        by (rewrite Hkept; now left).
      apply filter_In in Hk as [_ Hk]. intro Hnil.
      apply strip_nil in Hnil. rewrite Hnil in Hk. discriminate Hk. }
    simpl in Hin. destruct Hin as [<-|[]].
    destruct (map strip cells); [exact Hcell|].
    intro Hnil. apply app_eq_nil in Hnil as [Hnil _]. now apply Hcell.
Qed.

(** X1: the text of a DOCX file that opened is made of lines joined by a
    newline: first the paragraphs that hold a character other than
    whitespace, kept as they are with their blanks around, then one line for
    each table row that has a cell other than blank, holding those cells
    trimmed and joined by " | ". Blank paragraphs, blank cells and rows of
    blank cells leave nothing. *)
Theorem extract_docx_text_lines (docx_path : str) (doc : docx.Document) :
  extract_docs.extract_docx_text docx_path (docx.Opened doc)
  = join nl (docx_lines doc).
Proof.
  unfold extract_docs.extract_docx_text, docx_lines.
  rewrite (fold_left_snoc_if (fun para => str_truthy (strip para))).
  rewrite (@fold_left_flat _ _ _ (fun table => flat_map row_line table)).
  - simpl. do 2 f_equal. apply filter_ext. intro para. apply strip_truthy.
  - intros acc table.
    apply (@fold_left_flat _ _ _ row_line).
    intros lines row. rewrite row_cells_fold. unfold row_line.
    destruct (map strip (filter (fun cell => negb (blank cell)) row));
      simpl; [now rewrite app_nil_r|reflexivity].
Qed.

(** X2: the text of a DOCX file that opened is empty exactly when every
    paragraph and every table cell of the document is blank. *)
Theorem extract_docx_text_empty (docx_path : str) (doc : docx.Document) :
  extract_docs.extract_docx_text docx_path (docx.Opened doc) = []
  <-> forallb blank (docx.paragraphs doc) = true
      /\ forallb (forallb (forallb blank)) (docx.tables doc) = true.
Proof.
  assert (Hlines :
    docx_lines doc = []
    <-> forallb blank (docx.paragraphs doc) = true
        /\ forallb (forallb (forallb blank)) (docx.tables doc) = true).
  { unfold docx_lines. split.
    - intro Hnil. apply app_eq_nil in Hnil as [Hparas Htables]. split.
      + apply forallb_forall. intros para Hin.
        destruct (blank para) eqn:Hblank; [reflexivity|].
        assert (Hk : In para (filter (fun para => negb (blank para))
                                (docx.paragraphs doc))).
        { apply filter_In. split; [exact Hin|now rewrite Hblank]. }
        rewrite Hparas in Hk. destruct Hk.
      + apply forallb_forall. intros table Htable.
        apply forallb_forall. intros row Hrow.
        apply forallb_forall. intros cell Hcell.
        destruct (blank cell) eqn:Hblank; [reflexivity|].
        assert (Hk : In cell (filter (fun cell => negb (blank cell)) row)).
        { apply filter_In. split; [exact Hcell|now rewrite Hblank]. }
        assert (Hline : exists line, In line (row_line row)).
        { unfold row_line.
          destruct (filter (fun cell => negb (blank cell)) row) as [|c cs];
            [destruct Hk|].
          simpl. eexists. left. reflexivity. }
        destruct Hline as [line Hline].
        assert (Hin : In line
                        (flat_map (fun table => flat_map row_line table)
                           (docx.tables doc))).
        { apply in_flat_map. exists table. split; [exact Htable|].
          apply in_flat_map. exists row. split; [exact Hrow|exact Hline]. }
        rewrite Htables in Hin. destruct Hin.
    - intros [Hparas Htables].
      assert (Hp : filter (fun para => negb (blank para)) (docx.paragraphs doc)
                   = []).
      { induction (docx.paragraphs doc) as [|para paras IH];
          [reflexivity|].
        simpl in Hparas. apply andb_true_iff in Hparas as [Hpara Hrest].
        simpl. rewrite Hpara. simpl. now apply IH. }
      rewrite Hp. simpl.
      induction (docx.tables doc) as [|table tables IH]; [reflexivity|].
      simpl in Htables. apply andb_true_iff in Htables as [Htable Hrest].
      simpl. rewrite (IH Hrest), app_nil_r.
      clear IH Hrest Hp Hparas.
      induction table as [|row rows IH]; [reflexivity|].
      simpl in Htable. apply andb_true_iff in Htable as [Hrow Hrows].
      simpl. rewrite (IH Hrows), app_nil_r.
      unfold row_line.
      replace (filter (fun cell => negb (blank cell)) row) with (@nil str);
        [reflexivity|].
      clear IH Hrows. induction row as [|cell cells IH]; [reflexivity|].
      simpl in Hrow. apply andb_true_iff in Hrow as [Hcell Hcells].
      simpl. rewrite Hcell. simpl. now apply IH. }
  rewrite extract_docx_text_lines. split.
  - intro Hnil. apply Hlines.
    apply (join_nil nl); [apply docx_lines_not_empty|exact Hnil].
  - intro Hblank. apply Hlines in Hblank. now rewrite Hblank.
Qed.

(** X3: a failure cannot be told from content. When the file cannot be
    read, the function returns the text "Error extracting <path>: <cause>";
    a file that opens and holds that text as its one paragraph gives the
    very same result. *)
Theorem extract_docx_text_error_is_text (docx_path : str) (e : exn) :
  extract_docs.extract_docx_text docx_path (docx.Unreadable e)
  = py "Error extracting " ++ docx_path ++ py ": " ++ str_of_exn e
  /\ exists doc : docx.Document,
       extract_docs.extract_docx_text docx_path (docx.Opened doc)
       = extract_docs.extract_docx_text docx_path (docx.Unreadable e).
Proof.
  split; [reflexivity|].
  exists {| docx.paragraphs :=
              [py "Error extracting " ++ docx_path ++ py ": " ++ str_of_exn e];
            docx.tables := [] |}.
  rewrite extract_docx_text_lines. reflexivity.
Qed.

(** ** extract_tables_from_pdf *)

Lemma enumerate_length (A : Type) (items : list A) :
  forall start : Z,
    length (pdf_extractor.enumerate start items) = length items.
Proof.
  induction items as [|x items IH]; intro start; simpl; [reflexivity|].
  now rewrite IH.
Qed.

Lemma flat_map_single (A B : Type) (g : A -> B) (l : list A) :
  flat_map (fun x => [g x]) l = map g l.
Proof.
  induction l as [|x l IH]; simpl; [reflexivity|now rewrite IH].
Qed.

Lemma extract_tables_records (pages : list (list pdfplumber.table)) :
  pdf_extractor.extract_tables_from_pdf (pdfplumber.TablesOpened pages)
  = table_records pages.
Proof.
  unfold pdf_extractor.extract_tables_from_pdf, table_records.
  rewrite (@fold_left_flat _ _ _
             (fun numbered : Z * list pdfplumber.table =>
                map (fun indexed : Z * pdfplumber.table =>
                       table_record (fst numbered) (fst indexed) (snd indexed))
                  (pdf_extractor.enumerate 0 (snd numbered)))).
  - reflexivity.
  - intros acc [page_num page_tables].
    destruct page_tables as [|table page_tables].
    + simpl. now rewrite app_nil_r.
    + cbn [fst snd].
      rewrite (@fold_left_flat _ _ _
                 (fun indexed : Z * pdfplumber.table =>
                    [table_record page_num (fst indexed) (snd indexed)])).
      * now rewrite flat_map_single.
      * intros tables [table_idx tbl]. reflexivity.
Qed.

Lemma enumerate_spec (A : Type) (items : list A) :
  forall (start n : Z) (x : A),
    In (n, x) (pdf_extractor.enumerate start items)
    <-> (start <= n)%Z /\ nth_error items (Z.to_nat (n - start)) = Some x.
Proof.
  induction items as [|y items IH]; intros start n x; simpl.
  - split; [tauto|]. intros [_ Hnth].
    destruct (Z.to_nat (n - start)); discriminate Hnth.
  - rewrite IH. split.
    + intros [Hhead|[Hle Hnth]].
      * injection Hhead as <- <-. split; [lia|].
        now rewrite Z.sub_diag.
      * split; [lia|].
        replace (Z.to_nat (n - start)) with (S (Z.to_nat (n - (start + 1))))
          by lia.
        exact Hnth.
    + intros [Hle Hnth]. destruct (Z.eq_dec n start) as [->|Hneq].
      * left. rewrite Z.sub_diag in Hnth. simpl in Hnth.
        now injection Hnth as ->.
      * right. split; [lia|].
        replace (Z.to_nat (n - start)) with (S (Z.to_nat (n - (start + 1))))
          in Hnth by lia.
        exact Hnth.
Qed.

(** X4: the tables of a PDF that opened are returned as one record per
    table, by page and then by position on the page. A record names the
    page, counted from 1, and the index of the table on that page, counted
    from 0, and holds the table; every table of every page has its record,
    so the records are as many as the tables. *)
Theorem extract_tables_from_pdf_records
  (pages : list (list pdfplumber.table)) :
  let records :=
    pdf_extractor.extract_tables_from_pdf (pdfplumber.TablesOpened pages) in
  records = table_records pages
  /\ length records = list_sum (map (@length pdfplumber.table) pages)
  /\ (forall r : value,
        In r records
        <-> exists (page_num table_idx : Z) (page_tables : list pdfplumber.table)
                   (table : pdfplumber.table),
              r = table_record page_num table_idx table
              /\ (1 <= page_num)%Z /\ (0 <= table_idx)%Z
              /\ nth_error pages (Z.to_nat (page_num - 1)) = Some page_tables
              /\ nth_error page_tables (Z.to_nat table_idx) = Some table).
Proof.
  intro records. subst records. rewrite extract_tables_records.
  split; [reflexivity|]. split.
  - unfold table_records. generalize 1%Z.
    induction pages as [|page_tables pages IH]; intro start; simpl;
      [reflexivity|].
    rewrite length_app, length_map, enumerate_length, IH. reflexivity.
  - intro r. unfold table_records. rewrite in_flat_map. split.
    + intros [[page_num page_tables] [Hpage Hin]].
      apply in_map_iff in Hin as [[table_idx table] [<- Hin]].
      apply enumerate_spec in Hpage as [Hp Hpage].
      apply enumerate_spec in Hin as [Hi Hin].
      exists page_num, table_idx, page_tables, table. cbn [fst snd] in *.
      rewrite Z.sub_0_r in Hin. repeat split; assumption.
    + intros [page_num [table_idx [page_tables [table
               [-> [Hp [Hi [Hpage Htable]]]]]]]].
      exists (page_num, page_tables). split.
      * apply enumerate_spec. split; assumption.
      * apply in_map_iff. exists (table_idx, table). split; [reflexivity|].
        apply enumerate_spec. rewrite Z.sub_0_r. split; assumption.
Qed.

(** X5: a PDF whose tables cannot be read gives the empty list, the same
    answer as a PDF that opens and has no table on any of its pages: the
    failure is not reported to the caller. *)
Theorem extract_tables_from_pdf_hides_failure (e : exn) (n : nat) :
  pdf_extractor.extract_tables_from_pdf (pdfplumber.TablesUnreadable e) = []
  /\ pdf_extractor.extract_tables_from_pdf
       (pdfplumber.TablesOpened (repeat [] n))
     = pdf_extractor.extract_tables_from_pdf (pdfplumber.TablesUnreadable e).
Proof.
  split; [reflexivity|].
  rewrite extract_tables_records. unfold table_records. simpl.
  generalize 1%Z. induction n as [|n IH]; intro start; simpl;
    [reflexivity|apply IH].
Qed.

(** ** More of the catalog *)

Lemma get_issues_by_rule_run (E : Type) (fragment : str) (w : world) :
  compliance_issues_checklist.get_issues_by_rule (E := E) fragment w
  = (Return (items_by_rule fragment (global_COMPLIANCE_ISSUES_CHECKLIST w)), w).
Proof.
  unfold compliance_issues_checklist.get_issues_by_rule,
    bind, read, ret, items_by_rule, all_items.
  rewrite (@fold_left_flat _ _ _
             (fun entry =>
                filter (fun i => contains (rule i) fragment) (snd entry))).
  - simpl. do 2 f_equal.
    induction (global_COMPLIANCE_ISSUES_CHECKLIST w) as [|entry l IH];
      simpl; [reflexivity|].
    rewrite filter_app, IH. reflexivity.
  - intros acc [category issues]. simpl. apply fold_left_snoc_if.
Qed.

Lemma contains_trans (s mid needle : str) :
  contains s mid = true -> contains mid needle = true ->
  contains s needle = true.
Proof.
  rewrite !contains_spec.
  intros [pre [post ->]] [pre' [post' ->]].
  exists (pre ++ pre'), (post' ++ post). now rewrite <- !app_assoc.
Qed.

(** X6: [get_issues_by_rule] returns, in the order of the catalog, exactly
    the items whose rule citation holds the given text as a contiguous,
    case-sensitive substring, and leaves the process as it was. *)
Theorem get_issues_by_rule_filters (fragment : str) (w : world) :
  exists found : list ChecklistItem,
    compliance_issues_checklist.get_issues_by_rule (E := exn) fragment w
    = (Return found, w)
    /\ found
       = filter (fun i => contains (rule i) fragment)
           (flat_map snd (global_COMPLIANCE_ISSUES_CHECKLIST w))
    /\ (forall i : ChecklistItem,
          In i found
          <-> In i (all_items (global_COMPLIANCE_ISSUES_CHECKLIST w))
              /\ exists pre post, rule i = pre ++ fragment ++ post).
Proof.
  rewrite get_issues_by_rule_run. eexists. split; [reflexivity|].
  split; [reflexivity|].
  intro i. unfold items_by_rule. rewrite filter_In, contains_spec. reflexivity.
Qed.

(** X7: the empty text asks for every item: [get_issues_by_rule("")]
    returns the whole catalog. A longer text asks for less: when [narrow]
    holds [wide] as a substring, every item returned for [narrow] is
    returned for [wide]. *)
Theorem get_issues_by_rule_narrows (w : world) :
  fst (compliance_issues_checklist.get_issues_by_rule (E := exn) [] w)
  = Return (all_items (global_COMPLIANCE_ISSUES_CHECKLIST w))
  /\ (forall (wide narrow : str) (i : ChecklistItem),
        contains narrow wide = true ->
        In i (items_by_rule narrow (global_COMPLIANCE_ISSUES_CHECKLIST w)) ->
        In i (items_by_rule wide (global_COMPLIANCE_ISSUES_CHECKLIST w)))
  /\ (forall fragment : str,
        fst (compliance_issues_checklist.get_issues_by_rule
               (E := exn) fragment w)
        = Return (items_by_rule fragment
                    (global_COMPLIANCE_ISSUES_CHECKLIST w))).
Proof.
  split; [|split].
  - rewrite get_issues_by_rule_run. simpl fst. f_equal.
    unfold items_by_rule.
    induction (all_items (global_COMPLIANCE_ISSUES_CHECKLIST w))
      as [|i l IH]; simpl; [reflexivity|].
    replace (contains (rule i) []) with true; [now rewrite IH|].
    symmetry. apply contains_spec. now exists [], (rule i).
  - intros wide narrow i Hsub Hin. unfold items_by_rule in *.
    apply filter_In in Hin as [Hin Hnarrow]. apply filter_In.
    split; [exact Hin|]. exact (contains_trans _ _ _ Hnarrow Hsub).
  - intro fragment. now rewrite get_issues_by_rule_run.
Qed.

(** The catalog that the module defines holds well-formed items only. *)
Lemma catalog_items_well_formed :
  forallb item_well_formed
    (all_items compliance_issues_checklist.COMPLIANCE_ISSUES_CHECKLIST)
  = true.
Proof.
  vm_compute. reflexivity.
Qed.

(** X8: on the catalog that the module defines, the four severity levels
    sort the items: every item of the catalog is returned by
    [get_issues_by_severity] for exactly one of Critical, High, Medium and
    Low, which is its own severity. *)
Theorem severities_sort_the_catalog (w : world) (i : ChecklistItem) :
  global_COMPLIANCE_ISSUES_CHECKLIST w
  = compliance_issues_checklist.COMPLIANCE_ISSUES_CHECKLIST ->
  In i (all_items compliance_issues_checklist.COMPLIANCE_ISSUES_CHECKLIST) ->
  In (severity i) severities
  /\ forall level : str,
       In level severities ->
       ((exists found,
           fst (compliance_issues_checklist.get_issues_by_severity
                  (E := exn) level w) = Return found
           /\ In i found)
        <-> level = severity i).
Proof.
  intros Hstandard Hin.
  assert (Hlevel : In (severity i) severities).
  { pose proof catalog_items_well_formed as Hall.
    rewrite forallb_forall in Hall. specialize (Hall i Hin).
    unfold item_well_formed in Hall.
    apply andb_true_iff in Hall as [Hall _].
    apply andb_true_iff in Hall as [Hall _].
    apply andb_true_iff in Hall as [Hall _].
    apply existsb_exists in Hall as [level [Hl Heq]].
    apply str_eqb_eq in Heq. now rewrite Heq. }
  split; [exact Hlevel|].
  intros level _. rewrite get_issues_by_severity_run, Hstandard. simpl fst.
  split.
  - intros [found [Hret Hfound]]. injection Hret as <-.
    unfold items_by_severity in Hfound.
    apply filter_In in Hfound as [_ Heq]. apply str_eqb_eq in Heq.
    now symmetry.
  - intros ->. eexists. split; [reflexivity|].
    unfold items_by_severity. apply filter_In. split; [exact Hin|].
    apply str_eqb_refl.
Qed.

Lemma severities_sort_the_catalog_first_item :
  In (py "Critical") severities.
Proof.
  apply (@severities_sort_the_catalog
           (answering_world (py "NO ISSUES FOUND"))
           {| issue := py "No owners with 20%+ equity identified";
              rule := py "Rule 201(h)";
              severity := py "Critical";
              check := py "Must identify all beneficial owners with 20% or more of voting equity" |}).
  - reflexivity.
  - vm_compute. left. reflexivity.
Defined.

Lemma join_In_split (sep x : str) (parts : list str) :
  In x parts -> exists pre post, join sep parts = pre ++ x ++ post.
Proof.
  induction parts as [|p rest IH]; intro Hin; [destruct Hin|].
  destruct Hin as [->|Hin].
  - destruct rest as [|q rest].
    + exists [], []. simpl. now rewrite app_nil_r.
    + exists [], (sep ++ join sep (q :: rest)). reflexivity.
  - destruct (IH Hin) as [pre [post Heq]].
    destruct rest as [|q rest]; [destruct Hin|].
    exists (p ++ sep ++ pre), post.
    change (join sep (p :: q :: rest)) with (p ++ sep ++ join sep (q :: rest)).
    rewrite Heq, <- !app_assoc. reflexivity.
Qed.

(** X9: the text that [get_all_issues_as_prompt] returns leaves nothing of
    the catalog out: for every category it holds the heading of the
    category, and for every item of the category the text of the item, and
    with it the item's check, issue, rule and severity. *)
Theorem get_all_issues_as_prompt_is_complete (w : world) (category : str)
  (issues : list ChecklistItem) :
  In (category, issues) (global_COMPLIANCE_ISSUES_CHECKLIST w) ->
  exists text : str,
    compliance_issues_checklist.get_all_issues_as_prompt (E := exn) w
    = (Return text, w)
    /\ contains text (category_heading category) = true
    /\ forall i : ChecklistItem,
         In i issues ->
         contains text (item_text i) = true
         /\ contains text (check i) = true
         /\ contains text (issue i) = true
         /\ contains text (rule i) = true
         /\ contains text (severity i) = true.
Proof.
  intro Hentry. rewrite get_all_issues_as_prompt_run.
  eexists. split; [reflexivity|].
  assert (Hline :
    forall line,
      In line (category_heading category :: map item_text issues) ->
      contains (render_checklist (global_COMPLIANCE_ISSUES_CHECKLIST w)) line
      = true).
  { intros line Hin. apply contains_spec. unfold render_checklist.
    apply join_In_split. apply in_flat_map.
    exists (category, issues). split; [exact Hentry|exact Hin]. }
  split; [apply Hline; now left|].
  intros i Hin.
  assert (Hitem :
    contains (render_checklist (global_COMPLIANCE_ISSUES_CHECKLIST w))
      (item_text i) = true).
  { apply Hline. right. now apply in_map. }
  split; [exact Hitem|].
  repeat split; apply (contains_trans _ _ _ Hitem); apply contains_spec;
    unfold item_text.
  - exists (py "- Check: ").
    eexists. rewrite <- ?app_assoc. reflexivity.
  - exists (py "- Check: " ++ check i ++ nl
            ++ py "  If missing/inadequate, report: " ++ dquote).
    eexists. rewrite <- ?app_assoc. reflexivity.
  - exists (py "- Check: " ++ check i ++ nl
            ++ py "  If missing/inadequate, report: " ++ dquote
            ++ issue i ++ dquote ++ nl ++ py "  Rule: ").
    eexists. rewrite <- ?app_assoc. reflexivity.
  - exists (py "- Check: " ++ check i ++ nl
            ++ py "  If missing/inadequate, report: " ++ dquote
            ++ issue i ++ dquote ++ nl ++ py "  Rule: " ++ rule i
            ++ py ", Severity: ").
    exists []. rewrite app_nil_r, <- ?app_assoc. reflexivity.
Qed.

Lemma get_all_issues_as_prompt_is_complete_example :
  exists text : str,
    compliance_issues_checklist.get_all_issues_as_prompt (E := exn)
      (answering_world (py "NO ISSUES FOUND"))
    = (Return text, answering_world (py "NO ISSUES FOUND"))
    /\ contains text (category_heading (py "escrow_procedures")) = true.
Proof.
  destruct (@get_all_issues_as_prompt_is_complete
              (answering_world (py "NO ISSUES FOUND"))
              (py "escrow_procedures")
              [ {| issue := py "No escrow agent identified";
                   rule := py "Rule 303";
                   severity := py "High";
                   check := py "Should identify qualified third party holding investor funds" |} ])
    as [text [Hrun [Hheading _]]].
  - vm_compute. do 11 right. left. reflexivity.
  - exists text. split; assumption.
Defined.

(** ** More of the analyzer *)


(** X11: when the reasoning call gives a text, the analysis succeeds and
    carries that text unchanged twice, as raw_analysis and as the raw_text
    of structured_analysis; the issuer name is the one given, the error is
    [None] and the four sections are empty lists. *)
Theorem analyze_form_c_carries_the_reply (self : ComplianceAnalyzer)
  (issuer_name form_c_text : str) (w : world) (analysis_text : str) :
  reply w (call_of self issuer_name form_c_text) = Return analysis_text ->
  exists (result structured : dict),
    fst (analyze_form_c self issuer_name form_c_text w) = Return result
    /\ dict_get result (py "success") = Some (VBool true)
    /\ dict_get result (py "issuer_name") = Some (VStr issuer_name)
    /\ dict_get result (py "raw_analysis") = Some (VStr analysis_text)
    /\ dict_get result (py "structured_analysis") = Some (VDict structured)
    /\ dict_get structured (py "raw_text") = Some (VStr analysis_text)
    /\ dict_get structured (py "amendments") = Some (VList [])
    /\ dict_get structured (py "verifications") = Some (VList [])
    /\ dict_get structured (py "compliant_disclosures") = Some (VList [])
    /\ dict_get structured (py "key_personnel") = Some (VList [])
    /\ dict_get result (py "error") = Some VNone.
Proof.
  intro Hreply. rewrite analyze_form_c_run, Hreply. simpl fst.
  eexists. exists (_parse_analysis self analysis_text).
  split; [reflexivity|].
  rewrite parse_analysis_entries. repeat split; reflexivity.
Qed.

Lemma analyze_form_c_carries_the_reply_example :
  exists result : dict,
    fst (analyze_form_c an_analyzer acme_issuer (py "valid text")
           (answering_world (py "NO ISSUES FOUND"))) = Return result
    /\ dict_get result (py "success") = Some (VBool true)
    /\ dict_get result (py "raw_analysis") = Some (VStr (py "NO ISSUES FOUND")).
Proof.
  destruct (@analyze_form_c_carries_the_reply an_analyzer acme_issuer
              (py "valid text") (answering_world (py "NO ISSUES FOUND"))
              (py "NO ISSUES FOUND"))
    as [result [structured [Hret [Hsuccess [_ [Hraw _]]]]]].
  - reflexivity.
  - exists result. repeat split; assumption.
Defined.

(** X12: whatever the service does, an analysis returns a result in which
    the error is [None] exactly when success is true, and which names the
    issuer it was given. It reads and writes nothing of the process but the
    service: the environment, the catalog and the analyzer of [main] stay
    as they were, and the calls made grow by one. *)
Theorem analyze_form_c_result_invariant (self : ComplianceAnalyzer)
  (issuer_name form_c_text : str) (w : world) :
  exists (result : dict) (w' : world),
    analyze_form_c self issuer_name form_c_text w = (Return result, w')
    /\ (dict_get result (py "error") = Some VNone
        <-> dict_get result (py "success") = Some (VBool true))
    /\ (exists succeeded : bool,
          dict_get result (py "success") = Some (VBool succeeded))
    /\ dict_get result (py "issuer_name") = Some (VStr issuer_name)
    /\ environ_GEMINI_API_KEY w' = environ_GEMINI_API_KEY w
    /\ global_COMPLIANCE_ISSUES_CHECKLIST w'
       = global_COMPLIANCE_ISSUES_CHECKLIST w
    /\ global_compliance_analyzer w' = global_compliance_analyzer w
    /\ gemini w' = gemini w
    /\ length (gemini_calls w') = S (length (gemini_calls w)).
Proof.
  rewrite analyze_form_c_run.
  destruct (reply w (call_of self issuer_name form_c_text))
    as [analysis_text|e]; eexists; eexists; (split; [reflexivity|]).
  - split; [split; reflexivity|]. split; [now exists true|].
    repeat split. simpl. rewrite length_app. simpl. lia.
  - split; [split; intro H; discriminate H|]. split; [now exists false|].
    repeat split. simpl. rewrite length_app. simpl. lia.
Qed.

Lemma prompt_with_length (issuer_name embedded : str) :
  N.of_nat (length (prompt_with issuer_name embedded))
  = (5164 + N.of_nat (length issuer_name) + N.of_nat (length embedded))%N.
Proof.
  unfold prompt_with. rewrite !length_app.
  assert (Hhead : N.of_nat (length prompt_head) = 5115%N)
    by (vm_compute; reflexivity).
  assert (Htail : N.of_nat (length prompt_tail) = 47%N)
    by (vm_compute; reflexivity).
  change (length nl) with 1%nat. lia.
Qed.

(** X13: the size of the prompt is bounded. The prompt has 5,164 characters
    of its own (the instructions and the checklist), then the issuer's name
    and at most 100,000 characters of document text: its length is
    5,164 + len(issuer_name) + min(100,000, len(form_c_text)). *)
Theorem prompt_size (issuer_name form_c_text : str) :
  exists prompt : str,
    prepare_prompt issuer_name form_c_text = Return prompt
    /\ N.of_nat (length prompt)
       = (5164 + N.of_nat (length issuer_name)
          + N.min 100000 (N.of_nat (length form_c_text)))%N
    /\ (N.of_nat (length prompt)
        <= 105164 + N.of_nat (length issuer_name))%N.
Proof.
  eexists. split; [apply prepare_prompt_returns|].
  rewrite prompt_with_length, slice_to_length. split; lia.
Qed.

(** X14: the prompt holds the issuer's name, the document text up to its
    100,000th character and the whole checklist as they are. The arguments
    are not read as a template: braces and field names in them stay as
    written. *)
Theorem prompt_holds_arguments_verbatim (issuer_name form_c_text : str) :
  exists prompt : str,
    prepare_prompt issuer_name form_c_text = Return prompt
    /\ contains prompt issuer_name = true
    /\ contains prompt (slice_to 100000 form_c_text) = true
    /\ contains prompt COMPLIANCE_CHECKLIST = true
    /\ (forall e : exn,
          prepare_prompt (py "{form_c_text}") (py "{issuer_name} {}")
          <> Raise e).
Proof.
  eexists. split; [apply prepare_prompt_returns|].
  unfold prompt_with. rewrite !contains_spec. repeat split.
  - exists prompt_head. eexists. reflexivity.
  - exists (prompt_head ++ issuer_name ++ nl ++ nl), prompt_tail.
    rewrite <- !app_assoc. reflexivity.
  - rewrite prompt_head_parts.
    exists (before (py "{checklist}") REVIEW_PROMPT_TEMPLATE). eexists.
    rewrite <- !app_assoc. reflexivity.
  - intros e He. rewrite prepare_prompt_returns in He. discriminate He.
Qed.

(** ** The analyzer of the server *)

Lemma get_compliance_analyzer_cached (w : world)
  (analyzer : ComplianceAnalyzer) :
  global_compliance_analyzer w = Some analyzer ->
  main.get_compliance_analyzer w = (Return analyzer, w).
Proof.
  intro Hcached. unfold main.get_compliance_analyzer, bind, read.
  rewrite Hcached. reflexivity.
Qed.

Lemma get_compliance_analyzer_fresh (w : world) (c : char) (key : str) :
  global_compliance_analyzer w = None ->
  environ_GEMINI_API_KEY w = Some (c :: key) ->
  main.get_compliance_analyzer w
  = (Return (analyzer_with (c :: key)),
     with_analyzer (analyzer_with (c :: key)) w).
Proof.
  intros Hnone Hkey.
  unfold main.get_compliance_analyzer, getenv_GEMINI_API_KEY, bind, read.
  rewrite Hnone, Hkey.
  unfold main.uncaught, try_except, __init__, getenv_GEMINI_API_KEY,
    bind, read.
  rewrite Hkey. reflexivity.
Qed.


(** X15: the analyzer of the server is made once. With the key set and no
    analyzer yet, [get_compliance_analyzer] makes one with that key and
    keeps it; from then on it returns that same analyzer and does not read
    the environment again, whatever the variable is changed to, also when
    it is removed. *)
Theorem get_compliance_analyzer_is_kept (w : world) (c : char) (key : str) :
  global_compliance_analyzer w = None ->
  environ_GEMINI_API_KEY w = Some (c :: key) ->
  let first := main.get_compliance_analyzer w in
  fst first = Return (analyzer_with (c :: key))
  /\ global_compliance_analyzer (snd first) = Some (analyzer_with (c :: key))
  /\ gemini_calls (snd first) = gemini_calls w
  /\ forall later_key : option str,
       main.get_compliance_analyzer (with_key later_key (snd first))
       = (Return (analyzer_with (c :: key)), with_key later_key (snd first)).
Proof.
  intros Hnone Hkey first. subst first.
  rewrite (@get_compliance_analyzer_fresh w c key Hnone Hkey).
  simpl fst. simpl snd.
  split; [reflexivity|]. split; [reflexivity|]. split; [reflexivity|].
  intro later_key. apply get_compliance_analyzer_cached. reflexivity.
Qed.

Lemma get_compliance_analyzer_is_kept_example :
  main.get_compliance_analyzer
    (with_key None
       (snd (main.get_compliance_analyzer
               (answering_world (py "NO ISSUES FOUND")))))
  = (Return (analyzer_with (py "key")),
     with_key None
       (snd (main.get_compliance_analyzer
               (answering_world (py "NO ISSUES FOUND"))))).
Proof.
  apply (@get_compliance_analyzer_is_kept
           (answering_world (py "NO ISSUES FOUND")) 107%N (py "ey"));
    reflexivity.
Defined.

(** X16: a failed attempt keeps nothing. While the key is missing,
    [get_compliance_analyzer] raises and leaves the process as it was; as
    soon as the variable is set, the next call makes the analyzer, without
    a restart. *)
Theorem get_compliance_analyzer_recovers (w : world) :
  key_missing w ->
  global_compliance_analyzer w = None ->
  main.get_compliance_analyzer w = (Raise not_configured, w)
  /\ forall (c : char) (key : str),
       main.get_compliance_analyzer (with_key (Some (c :: key)) w)
       = (Return (analyzer_with (c :: key)),
          with_analyzer (analyzer_with (c :: key))
            (with_key (Some (c :: key)) w)).
Proof.
  intros Hmissing Hnone. split.
  - now apply get_compliance_analyzer_without_key.
  - intros c key. apply get_compliance_analyzer_fresh; [exact Hnone|reflexivity].
Qed.

Lemma get_compliance_analyzer_recovers_example :
  main.get_compliance_analyzer
    (initial_world None (answering_service (py "NO ISSUES FOUND")))
  = (Raise not_configured,
     initial_world None (answering_service (py "NO ISSUES FOUND"))).
Proof.
  apply (@get_compliance_analyzer_recovers
           (initial_world None (answering_service (py "NO ISSUES FOUND")))).
  - left. reflexivity.
  - reflexivity.
Defined.

(** X17: the health check answers healthy whether or not the key is set; its
    flag gemini_configured is true exactly when the key is set. While no
    analyzer has been made, the flag tells what an analysis request will
    meet: it is true exactly when [get_compliance_analyzer] returns. The
    process is left as it was. *)
Theorem health_check_reports_key (w : world) :
  exists report : dict,
    main.health_check w = (Return report, w)
    /\ dict_get report (py "status") = Some (VStr (py "healthy"))
    /\ (dict_get report (py "gemini_configured") = Some (VBool true)
        <-> ~ key_missing w)
    /\ (dict_get report (py "gemini_configured") = Some (VBool false)
        <-> key_missing w)
    /\ (global_compliance_analyzer w = None ->
        (dict_get report (py "gemini_configured") = Some (VBool true)
         <-> exists analyzer w1,
               main.get_compliance_analyzer w = (Return analyzer, w1)))
    /\ exists greeting : dict,
         main.root w = (Return greeting, w)
         /\ dict_get greeting (py "gemini_configured")
            = dict_get report (py "gemini_configured").
Proof.
  unfold main.health_check, main.root, main.gemini_configured,
    getenv_GEMINI_API_KEY, bind, read, ret, key_missing.
  destruct (environ_GEMINI_API_KEY w) as [[|c key]|] eqn:Hkey;
    eexists; (split; [reflexivity|]); (split; [reflexivity|]).
  - split; [split; [intro H; discriminate H|intro H; exfalso; apply H; now right]|].
    split; [split; [now right|reflexivity]|].
    split; [|eexists; split; reflexivity].
    intro Hnone. split; [intro H; discriminate H|].
    intros [analyzer [w1 Hget]].
    rewrite get_compliance_analyzer_without_key in Hget;
      [discriminate Hget|now right|exact Hnone].
  - split; [split; [intros _ [H|H]; discriminate H|reflexivity]|].
    split; [split; [intro H; discriminate H|intros [H|H]; discriminate H]|].
    split; [|eexists; split; reflexivity].
    intro Hnone. split; [|reflexivity].
    intros _. eexists. eexists.
    exact (@get_compliance_analyzer_fresh w c key Hnone Hkey).
  - split; [split; [intro H; discriminate H|intro H; exfalso; apply H; now left]|].
    split; [split; [now left|reflexivity]|].
    split; [|eexists; split; reflexivity].
    intro Hnone. split; [intro H; discriminate H|].
    intros [analyzer [w1 Hget]].
    rewrite get_compliance_analyzer_without_key in Hget;
      [discriminate Hget|now left|exact Hnone].
Qed.

(** ** The analysis handler *)

(** With a PDF that opened and an analyzer at hand, the handler makes one
    analysis and answers by its outcome. *)
Lemma handler_body_run (upload : main.UploadFile) (pages : list (option str))
  (issuer_name : str) (w w1 : world) (analyzer : ComplianceAnalyzer) :
  main.file upload = pdfplumber.Opened pages ->
  main.get_compliance_analyzer w = (Return analyzer, w1) ->
  main.analyze_form_c_body upload issuer_name w
  = (match reply w1 (call_of analyzer issuer_name (full_text_of pages)) with
     | Return analysis_text =>
       Return (success_response analyzer issuer_name pages analysis_text)
     | Raise e => Raise (analysis_failed e)
     end,
     after_call w1 (call_of analyzer issuer_name (full_text_of pages))).
Proof.
  intros Hfile Hget.
  unfold main.analyze_form_c_body. rewrite Hfile.
  rewrite extract_text_from_pdf_opened.
  unfold bind at 1.
  change (main.item _ (py "success") w)
    with (Return (E := main.raised) (VBool true), w).
  cbv iota beta.
  change (negb (truthy (VBool true))) with false. cbv iota.
  unfold bind at 1. rewrite Hget.
  unfold bind at 1.
  change (main.item _ (py "full_text") w1)
    with (Return (E := main.raised) (VStr (full_text_of pages)), w1).
  cbv iota beta.
  unfold bind at 1. unfold main.uncaught at 1, try_except at 1.
  change (str_value (VStr (full_text_of pages))) with (full_text_of pages).
  rewrite analyze_form_c_run.
  destruct (reply w1 (call_of analyzer issuer_name (full_text_of pages)))
    as [analysis_text|e]; reflexivity.
Qed.

Lemma handler_run (upload : main.UploadFile) (pages : list (option str))
  (issuer_name : str) (w w1 : world) (analyzer : ComplianceAnalyzer) :
  endswith (main.filename upload) (py ".pdf") = true ->
  main.file upload = pdfplumber.Opened pages ->
  main.get_compliance_analyzer w = (Return analyzer, w1) ->
  main.analyze_form_c upload issuer_name w
  = (match reply w1 (call_of analyzer issuer_name (full_text_of pages)) with
     | Return analysis_text =>
       Return (success_response analyzer issuer_name pages analysis_text)
     | Raise e => Raise (analysis_failed e)
     end,
     after_call w1 (call_of analyzer issuer_name (full_text_of pages))).
Proof.
  intros Hname Hfile Hget.
  unfold main.analyze_form_c. rewrite Hname.
  change (negb true) with false. cbv iota.
  unfold try_except.
  rewrite (@handler_body_run upload pages issuer_name w w1 analyzer Hfile Hget).
  destruct (reply w1 (call_of analyzer issuer_name (full_text_of pages)));
    reflexivity.
Qed.

Lemma handler_unreadable (upload : main.UploadFile) (issuer_name : str)
  (w : world) (e : exn) :
  endswith (main.filename upload) (py ".pdf") = true ->
  main.file upload = pdfplumber.Unreadable e ->
  main.analyze_form_c upload issuer_name w
  = (Raise (main.HTTPException 422
              (py "Failed to extract PDF text: " ++ str_of_exn e)), w).
Proof.
  intros Hname Hfile.
  unfold main.analyze_form_c. rewrite Hname.
  change (negb true) with false. cbv iota.
  unfold try_except, main.analyze_form_c_body. rewrite Hfile.
  reflexivity.
Qed.

(** X18: what is wrong with the upload is answered before the key is looked
    at, and nothing else happens. A file whose name does not end in .pdf,
    in lower case, is refused with status 400; a PDF by name that cannot be
    read is refused with status 422 and the cause. In both cases the
    process is left as it was: no analyzer is made and the reasoning
    service is not called, whether or not a key is set. *)
Theorem handler_refuses_bad_uploads (upload : main.UploadFile)
  (issuer_name : str) (w : world) :
  (endswith (main.filename upload) (py ".pdf") = false ->
   main.analyze_form_c upload issuer_name w
   = (Raise (main.HTTPException 400 (py "Only PDF files are accepted")), w))
  /\ (forall e : exn,
        endswith (main.filename upload) (py ".pdf") = true ->
        main.file upload = pdfplumber.Unreadable e ->
        main.analyze_form_c upload issuer_name w
        = (Raise (main.HTTPException 422
                    (py "Failed to extract PDF text: " ++ str_of_exn e)), w))
  /\ endswith (py "FORM-C.PDF") (py ".pdf") = false.
Proof.
  split; [|split].
  - intro Hname. unfold main.analyze_form_c. rewrite Hname. reflexivity.
  - intros e Hname Hfile. now apply handler_unreadable.
  - vm_compute. reflexivity.
Qed.

(** X19: when the reasoning call fails, the handler answers with status 500
    and the detail "AI analysis failed: " followed by the text of the
    exception; the one call has been made and is not repeated. *)
Theorem handler_reports_failed_analysis (upload : main.UploadFile)
  (pages : list (option str)) (issuer_name : str) (w w1 : world)
  (analyzer : ComplianceAnalyzer) (e : exn) :
  endswith (main.filename upload) (py ".pdf") = true ->
  main.file upload = pdfplumber.Opened pages ->
  main.get_compliance_analyzer w = (Return analyzer, w1) ->
  reply w1 (call_of analyzer issuer_name (full_text_of pages)) = Raise e ->
  let answered := main.analyze_form_c upload issuer_name w in
  fst answered
  = Raise (main.HTTPException 500
             (py "AI analysis failed: " ++ str_of_exn e))
  /\ gemini_calls (snd answered)
     = gemini_calls w1 ++ [call_of analyzer issuer_name (full_text_of pages)].
Proof.
  intros Hname Hfile Hget Hreply answered. subst answered.
  rewrite (@handler_run upload pages issuer_name w w1 analyzer Hname Hfile Hget).
  rewrite Hreply. split; reflexivity.
Qed.

Lemma handler_reports_failed_analysis_example :
  fst (main.analyze_form_c (pdf_upload [Some (py "Offering summary")])
         acme_issuer (failing_world (Exception (py "Deadline Exceeded"))))
  = Raise (main.HTTPException 500
             (py "AI analysis failed: " ++ py "Deadline Exceeded")).
Proof.
  apply (@handler_reports_failed_analysis
           (pdf_upload [Some (py "Offering summary")])
           [Some (py "Offering summary")] acme_issuer
           (failing_world (Exception (py "Deadline Exceeded")))
           (with_analyzer (analyzer_with (py "key"))
              (failing_world (Exception (py "Deadline Exceeded"))))
           (analyzer_with (py "key"))
           (Exception (py "Deadline Exceeded"))).
  - vm_compute. reflexivity.
  - reflexivity.
  - apply (@get_compliance_analyzer_fresh
             (failing_world (Exception (py "Deadline Exceeded")))
             107%N (py "ey")); reflexivity.
  - reflexivity.
Defined.

(** X20: when the reasoning call gives a text, the handler answers with the
    fields of the response model and no others: success, the issuer name,
    the number of pages of the PDF, the text as raw_analysis, its structured
    form, the model name and no error. One call has been made, and its
    prompt holds the text of the pages, cut to 100,000 characters. *)
Theorem handler_answers_analysis (upload : main.UploadFile)
  (pages : list (option str)) (issuer_name : str) (w w1 : world)
  (analyzer : ComplianceAnalyzer) (analysis_text : str) :
  endswith (main.filename upload) (py ".pdf") = true ->
  main.file upload = pdfplumber.Opened pages ->
  main.get_compliance_analyzer w = (Return analyzer, w1) ->
  reply w1 (call_of analyzer issuer_name (full_text_of pages))
  = Return analysis_text ->
  exists response : dict,
    fst (main.analyze_form_c upload issuer_name w) = Return response
    /\ keys response = main.AnalysisResponse
    /\ dict_get response (py "success") = Some (VBool true)
    /\ dict_get response (py "issuer_name") = Some (VStr issuer_name)
    /\ dict_get response (py "total_pages")
       = Some (VInt (Z.of_nat (length pages)))
    /\ dict_get response (py "raw_analysis") = Some (VStr analysis_text)
    /\ dict_get response (py "structured_analysis")
       = Some (VDict (_parse_analysis analyzer analysis_text))
    /\ dict_get response (py "model_used")
       = Some (VStr (py "gemini-2.0-flash-exp"))
    /\ dict_get response (py "error") = Some VNone
    /\ map genai.call_prompt
         (gemini_calls (snd (main.analyze_form_c upload issuer_name w)))
       = map genai.call_prompt (gemini_calls w1)
         ++ [prompt_with issuer_name (slice_to 100000 (full_text_of pages))].
Proof.
  intros Hname Hfile Hget Hreply.
  rewrite (@handler_run upload pages issuer_name w w1 analyzer Hname Hfile Hget).
  rewrite Hreply. simpl fst. simpl snd.
  exists (success_response analyzer issuer_name pages analysis_text).
  split; [reflexivity|]. split; [vm_compute; reflexivity|].
  repeat (split; [reflexivity|]).
  simpl gemini_calls. rewrite map_app. reflexivity.
Qed.

Lemma handler_answers_analysis_example :
  exists response : dict,
    fst (main.analyze_form_c (pdf_upload [Some (py "Offering summary"); None])
           acme_issuer (answering_world (py "NO ISSUES FOUND")))
    = Return response
    /\ keys response = main.AnalysisResponse
    /\ dict_get response (py "total_pages") = Some (VInt 2).
Proof.
  destruct (@handler_answers_analysis
              (pdf_upload [Some (py "Offering summary"); None])
              [Some (py "Offering summary"); None] acme_issuer
              (answering_world (py "NO ISSUES FOUND"))
              (with_analyzer (analyzer_with (py "key"))
                 (answering_world (py "NO ISSUES FOUND")))
              (analyzer_with (py "key"))
              (py "NO ISSUES FOUND"))
    as [response [Hret [Hkeys [_ [_ [Hpages _]]]]]].
  - vm_compute. reflexivity.
  - reflexivity.
  - apply (@get_compliance_analyzer_fresh
             (answering_world (py "NO ISSUES FOUND")) 107%N (py "ey"));
      reflexivity.
  - reflexivity.
  - exists response. repeat split; assumption.
Defined.



Lemma pages_without_text (pages : list (option str)) :
  forallb (fun page => negb (has_text page)) pages = true ->
  forall start : Z, pages_with_text start pages = [].
Proof.
  induction pages as [|page pages IH]; intros Hall start; [reflexivity|].
  simpl in Hall. apply andb_true_iff in Hall as [Hpage Hrest].
  destruct page as [[|c t]|]; simpl; try discriminate Hpage; now apply IH.
Qed.

(** X22: a PDF that opens but gives no text on any page (a scan, say) is
    not an extraction failure: the extractor reports success with an empty
    full_text and no pages, and the handler goes on and asks the reasoning
    service about an empty document. *)
Theorem pdf_without_text_is_analyzed (pages : list (option str)) :
  forallb (fun page => negb (has_text page)) pages = true ->
  let extraction :=
    pdf_extractor.extract_text_from_pdf (pdfplumber.Opened pages) in
  dict_get extraction (py "success") = Some (VBool true)
  /\ dict_get extraction (py "full_text") = Some (VStr [])
  /\ dict_get extraction (py "pages") = Some (VList [])
  /\ dict_get extraction (py "total_pages")
     = Some (VInt (Z.of_nat (length pages)))
  /\ forall (upload : main.UploadFile) (issuer_name : str) (w w1 : world)
            (analyzer : ComplianceAnalyzer),
       endswith (main.filename upload) (py ".pdf") = true ->
       main.file upload = pdfplumber.Opened pages ->
       main.get_compliance_analyzer w = (Return analyzer, w1) ->
       map genai.call_prompt
         (gemini_calls (snd (main.analyze_form_c upload issuer_name w)))
       = map genai.call_prompt (gemini_calls w1)
         ++ [prompt_with issuer_name []].
Proof.
  intros Hall extraction. subst extraction.
  rewrite extract_text_from_pdf_opened.
  rewrite (@pages_without_text pages Hall 1).
  repeat (split; [reflexivity|]).
  intros upload issuer_name w w1 analyzer Hname Hfile Hget.
  rewrite (@handler_run upload pages issuer_name w w1 analyzer Hname Hfile Hget).
  simpl snd. simpl gemini_calls. rewrite map_app.
  unfold full_text_of. rewrite (@pages_without_text pages Hall 1).
  reflexivity.
Qed.

Lemma pdf_without_text_is_analyzed_scan :
  dict_get
    (pdf_extractor.extract_text_from_pdf (pdfplumber.Opened [None; Some []]))
    (py "full_text")
  = Some (VStr []).
Proof.
  apply (@pdf_without_text_is_analyzed [None; Some []]). reflexivity.
Defined.

Lemma pages_with_text_from (pages : list (option str)) :
  forall start : Z,
    Forall (fun numbered : Z * str =>
              (start <= fst numbered < start + Z.of_nat (length pages))%Z)
      (pages_with_text start pages).
Proof.
  induction pages as [|page pages IH]; intro start; [constructor|].
  assert (Hrest :
    Forall (fun numbered : Z * str =>
              (start <= fst numbered
               < start + Z.of_nat (length (page :: pages)))%Z)
      (pages_with_text (start + 1) pages)).
  { eapply Forall_impl; [|apply IH].
    intros numbered Hin. cbv beta in Hin. cbn [length]. lia. }
  destruct page as [[|c t]|]; simpl pages_with_text; try exact Hrest.
  constructor; [cbn [fst length]; lia|exact Hrest].
Qed.

Lemma pages_with_text_sorted (pages : list (option str)) :
  forall start : Z,
    StronglySorted (fun a b : Z * str => (fst a < fst b)%Z)
      (pages_with_text start pages).
Proof.
  induction pages as [|page pages IH]; intro start; [constructor|].
  destruct page as [[|c t]|]; simpl; try apply IH.
  constructor; [apply IH|].
  eapply Forall_impl; [|apply (pages_with_text_from pages (start + 1))].
  intros numbered Hin. cbv beta in Hin. cbn [fst]. lia.
Qed.

(** X23: the entries of pages and the blocks of full_text go together, one
    of each for each page with text and in the same order, which is the
    order of the pages of the PDF: the page numbers grow strictly from
    entry to entry and lie between 1 and total_pages. *)
Theorem extract_text_from_pdf_keeps_page_order (pages : list (option str)) :
  exists kept : list (Z * str),
    dict_get (pdf_extractor.extract_text_from_pdf (pdfplumber.Opened pages))
      (py "pages") = Some (VList (map page_entry kept))
    /\ dict_get (pdf_extractor.extract_text_from_pdf (pdfplumber.Opened pages))
         (py "full_text")
       = Some (VStr (join (nl ++ nl) (map page_block kept)))
    /\ StronglySorted (fun a b : Z * str => (fst a < fst b)%Z) kept
    /\ Forall (fun numbered : Z * str =>
                 (1 <= fst numbered <= Z.of_nat (length pages))%Z
                 /\ snd numbered <> [])
         kept.
Proof.
  exists (pages_with_text 1 pages).
  rewrite extract_text_from_pdf_opened.
  split; [reflexivity|]. split; [reflexivity|].
  split; [apply pages_with_text_sorted|].
  apply Forall_forall. intros [n t] Hin. simpl. split.
  - pose proof (pages_with_text_from pages 1) as Hfrom.
    rewrite Forall_forall in Hfrom. specialize (Hfrom (n, t) Hin).
    cbn [fst] in Hfrom. lia.
  - apply pages_with_text_spec in Hin. apply Hin.
Qed.
